(** * Loan-application field extraction: the asynchronous orchestrator

    A shallow embedding of [extraction.py] and [extraction_class_type.py].

    The Python code is asynchronous, talks to a language-model service and
    writes files.  Here every coroutine is a computation in a state-and-
    exception monad [M]; the state holds a chronological trace of the
    externally visible effects (model requests, prints, calls of the
    document collaborators) and the file system.  The collaborators that
    are not part of the repository (the JSON codec of the Python standard
    library, the model client, the PDF-to-image conversion, the document
    parser, the prompt builders) are the fields of an environment [Env].
    The two model operations may answer differently at every call: they
    receive the trace of everything that happened before. *)

From stdpp Require Import gmap strings list fin_maps pretty.
From Stdlib Require Import ZArith Ascii.

Local Open Scope string_scope.

(** ** Python values *)

(** [ExtractionClass] of [extraction_class_type.py]: a pydantic model with
    twenty-two required [str] fields. *)
Record ExtractionClass := mkExtractionClass {
  fullName : string;
  address : string;
  loanType : string;
  loanAmount : string;
  emiComfort : string;
  monthlyObligations : string;
  incomeSource : string;
  salaryAmount : string;
  designationEmployer : string;
  otherIncomeSources : string;
  businessRevenue : string;
  businessProfit : string;
  businessSalary : string;
  atPropertyLocation : string;
  propertyAddress : string;
  propertyType : string;
  propertyStructure : string;
  propertyUsage : string;
  landArea : string;
  marketValue : string;
  existingLoan : string;
  existingLoanEmi : string
}.

(** The field names, in declaration order. *)
Definition ExtractionClass_fields : list string :=
  [ "fullName"; "address"; "loanType"; "loanAmount"; "emiComfort";
    "monthlyObligations"; "incomeSource"; "salaryAmount";
    "designationEmployer"; "otherIncomeSources"; "businessRevenue";
    "businessProfit"; "businessSalary"; "atPropertyLocation";
    "propertyAddress"; "propertyType"; "propertyStructure";
    "propertyUsage"; "landArea"; "marketValue"; "existingLoan";
    "existingLoanEmi" ].

(** The fields of an instance with their values (pydantic's view of the
    instance as a mapping). *)
Definition model_fields (e : ExtractionClass) : list (string * string) :=
  [ ("fullName", fullName e); ("address", address e);
    ("loanType", loanType e); ("loanAmount", loanAmount e);
    ("emiComfort", emiComfort e);
    ("monthlyObligations", monthlyObligations e);
    ("incomeSource", incomeSource e); ("salaryAmount", salaryAmount e);
    ("designationEmployer", designationEmployer e);
    ("otherIncomeSources", otherIncomeSources e);
    ("businessRevenue", businessRevenue e);
    ("businessProfit", businessProfit e);
    ("businessSalary", businessSalary e);
    ("atPropertyLocation", atPropertyLocation e);
    ("propertyAddress", propertyAddress e);
    ("propertyType", propertyType e);
    ("propertyStructure", propertyStructure e);
    ("propertyUsage", propertyUsage e); ("landArea", landArea e);
    ("marketValue", marketValue e); ("existingLoan", existingLoan e);
    ("existingLoanEmi", existingLoanEmi e) ].

(** The three pydantic classes handed to [generate_prompt_template]. *)
Inductive SchemaClass :=
  | ExtractionClassT
  | AIAgentClassT
  | OutputExampleClassT.

(** The Python values that flow through the orchestrator: what
    [json.loads] can build, an [ExtractionClass] instance, and any other
    object (named by its class). *)
#[warnings="-register-all"]
Inductive pyval :=
  | PNone
  | PBool (b : bool)
  | PInt (z : Z)
  | PStr (s : string)
  | PList (l : list pyval)
  | PDict (d : list (string * pyval))
  | PModel (e : ExtractionClass)
  | PObject (cls : string).

(** Python truth value, as tested by [if response and ...]. *)
Definition truthy (v : pyval) : bool :=
  match v with
  | PNone => false
  | PBool b => b
  | PInt z => negb (z =? 0)%Z
  | PStr s => negb (String.eqb s "")
  | PList l => negb (bool_decide (l = []))
  | PDict d => match d with [] => false | _ => true end
  | PModel _ => true
  | PObject _ => true
  end.

(** [isinstance(v, ExtractionClass)]. *)
Definition isinstance_ExtractionClass (v : pyval) : bool :=
  match v with
  | PModel _ => true
  | _ => false
  end.

(** The keys of a value seen as a record: the keys of a dict, the field
    names of a model instance; other values have none. *)
Definition record_keys (v : pyval) : option (list string) :=
  match v with
  | PDict d => Some (d.*1)
  | PModel e => Some ((model_fields e).*1)
  | _ => None
  end.

(** A record that conforms to the [ExtractionClass] schema: exactly the
    twenty-two field names, each bound to a string. *)
Definition conforms (v : pyval) : bool :=
  match v with
  | PModel _ => true
  | PDict d =>
      bool_decide (d.*1 = ExtractionClass_fields)
      && forallb (fun kv => match kv.2 with PStr _ => true | _ => false end) d
  | _ => false
  end.

(** ** Exceptions, effects and the monad *)

Inductive exn :=
  | ValueError (msg : string)
  | JSONDecodeError
  | TypeError
  | OSError
  | ServiceError (msg : string).

Inductive outcome (A : Type) :=
  | Ok (a : A)
  | Raise (e : exn).
Arguments Ok {A} a.
Arguments Raise {A} e.

(** The content block of a page: an image as a data URL or a text. *)
Inductive content :=
  | InputImage (image_url : string)
  | InputText (text : string).

(** One request to the extraction model ([client.responses.create]). *)
Record request := mkRequest {
  req_prompt : string;
  req_page_number : nat;
  req_content : content
}.

Inductive event :=
  | EvCreate (r : request)
  | EvParse (raw : string)
  | EvPrint (page_number : nat)
  | EvBase64 (path : string)
  | EvLandingParse (paths : list string)
  | EvWrite (path : string) (text : string).

Record state := mkState {
  trace : list event;
  files : gmap string string
}.

Definition M (A : Type) : Type := state -> outcome A * state.

Definition ret {A} (a : A) : M A := fun s => (Ok a, s).

Definition raise {A} (e : exn) : M A := fun s => (Raise e, s).

Definition bind {A B} (m : M A) (k : A -> M B) : M B :=
  fun s =>
    match m s with
    | (Ok a, s') => k a s'
    | (Raise e, s') => (Raise e, s')
    end.

Notation "'do' x <- m ; k" := (bind m (fun x => k))
  (at level 10, x name, m at level 100, k at level 200).
Notation "m ;;; k" := (bind m (fun _ => k))
  (at level 100, k at level 200, right associativity).

(** Record an effect in the trace. *)
Definition emit (ev : event) : M unit :=
  fun s => (Ok tt, mkState (trace s ++ [ev]) (files s)).

(** Lift the answer of a pure collaborator. *)
Definition lift {A} (o : outcome A) : M A := fun s => (o, s).

(** Call a collaborator whose answer depends on what happened so far.  The
    call is recorded whether it returns or raises. *)
Definition call {A} (ev : event) (f : list event -> outcome A) : M A :=
  fun s => (f (trace s), mkState (trace s ++ [ev]) (files s)).

(** The model calls recorded in a trace. *)
Definition is_model_call (ev : event) : bool :=
  match ev with
  | EvCreate _ | EvParse _ => true
  | _ => false
  end.

Definition model_calls (s : state) : list event :=
  filter (fun ev => is_model_call ev = true) (trace s).

(** The file writes recorded in a trace. *)
Definition write_of (ev : event) : option (string * string) :=
  match ev with
  | EvWrite p t => Some (p, t)
  | _ => None
  end.

Definition writes (s : state) : list (string * string) :=
  omap write_of (trace s).

(** ** [asyncio.gather]

    The event loop runs the tasks one after the other in an order of its
    own; a schedule is a list of picks, each choosing one of the tasks
    still pending (modulo their number, so that every list of numbers is a
    schedule).  A task runs to completion once picked: the tasks share
    nothing but the model client and the rate limiter, whose answers may
    depend on the order through the trace.  The first exception raised is
    the outcome of [gather] (called without [return_exceptions]); what the
    tasks still pending do afterwards is not observed by the caller and is
    left out.  Otherwise the results are read by position. *)

Section Gather.

Context {A : Type}.

(** Run the pending tasks in the order of the schedule; [done] holds the
    finished ones, latest first, each with its position. *)
Fixpoint complete_all (n : nat) (pending : list (nat * M A))
    (sched : list nat) (done : list (nat * A)) : M (list (nat * A)) :=
  match n with
  | 0 => ret done
  | S n' =>
      let k := hd 0 sched `mod` length pending in
      match pending !! k with
      | None => ret done
      | Some (i, t) =>
          do x <- t;
          complete_all n' (delete k pending) (tl sched) ((i, x) :: done)
      end
  end.

(** The result stored for position [i]. *)
Fixpoint result_at (i : nat) (done : list (nat * A)) : option A :=
  match done with
  | [] => None
  | (j, x) :: rest => if bool_decide (i = j) then Some x else result_at i rest
  end.

Definition gather (tasks : list (M A)) (sched : list nat) : M (list A) :=
  do done <- complete_all (length tasks) (imap (fun i t => (i, t)) tasks)
                          sched [];
  ret (omap (fun i => result_at i done) (seq 0 (length tasks))).

End Gather.

(** [str.split(sep)] for a one-character separator. *)
Fixpoint split_at (sep : Ascii.ascii) (s : string) : list string :=
  match s with
  | EmptyString => [""]
  | String c r =>
      if Ascii.eqb c sep then "" :: split_at sep r
      else match split_at sep r with
           | [] => [String c ""]
           | w :: ws => String c w :: ws
           end
  end.

(** [pdf_path.split("/")[-1]]. *)
Definition last_component (pdf_path : string) : string :=
  default "" (last (split_at "/"%char pdf_path)).

(** ** The collaborators *)

(** [PromptSchema] of [prompt_processing]: the three sub-templates. *)
Record PromptSchema := mkPromptSchema {
  ai_agent_information : string;
  extract_fields : string;
  output_example : string
}.

Record Env := mkEnv {
  (** [json.loads]: the decoded value, or the exception it raises
      ([JSONDecodeError] for a text that is not JSON). *)
  json_loads : string -> outcome pyval;
  (** [json.dump(v, f, indent=2)]: the text written, or the exception for
      a value that cannot be serialized. *)
  json_dump_indent2 : pyval -> outcome string;
  (** [client.responses.create(...).output_text] at temperature 0.1. *)
  responses_create : list event -> request -> outcome string;
  (** [client.responses.parse(..., text_format=ExtractionClass)]: the value
      bound to [response]. *)
  responses_parse : list event -> string -> outcome pyval;
  (** The prompt builders of [prompt_processing], taken to return. *)
  generate_prompt_template : SchemaClass -> string;
  generate_prompt_from_schema : PromptSchema -> string;
  (** [base_64_conversation(input_type="PDF", file_path=...)]. *)
  base_64_conversation : list event -> string -> outcome (list string);
  (** [landing_ai_vision_parser(document_path_or_url, save_parse,
      result_save_dir)]. *)
  landing_ai_vision_parser :
    list event -> list string -> bool -> string -> outcome (list pyval);
  retrieve_page_wise_parse : pyval -> outcome (list string);
  (** Whether [open(path, "w")] succeeds. *)
  can_open_w : string -> bool
}.

(** ** The page extractor and the response repair *)

Section Orchestrator.

Variable E : Env.

(** [async with rate_limiter]: the limiter only delays its body. *)
Definition with_rate_limiter {A} (m : M A) : M A := m.

(** [parse_response_content]. *)
Definition parse_response_content (response_content : string) : M pyval :=
  match json_loads E response_content with
  | Ok v => ret v
  | Raise JSONDecodeError =>
      do response <- with_rate_limiter
        (call (EvParse response_content)
              (fun tr => responses_parse E tr response_content));
      if truthy response && isinstance_ExtractionClass response
      then ret response
      else ret (PDict [])
  | Raise e => raise e
  end.

(** [extract_fields_async]. *)
Definition extract_fields_async
    (input_type : string) (base_64 text_input : string) (page_number : nat)
    : M pyval :=
  do content <-
    (if bool_decide (input_type ∈ ["PDF"; "IMAGE"]) then
       ret (InputImage ("data:image/jpeg;base64," ++ base_64))
     else if bool_decide (input_type = "TEXT") then
       ret (InputText text_input)
     else raise (ValueError "Unsupported file type. Use 'PDF' or 'IMAGE'."));
  let extraction_template := generate_prompt_template E ExtractionClassT in
  let ai_agent_template := generate_prompt_template E AIAgentClassT in
  let output_example_template := generate_prompt_template E OutputExampleClassT in
  let schema := mkPromptSchema ai_agent_template extraction_template
                               output_example_template in
  let prompt := generate_prompt_from_schema E schema in
  let req := mkRequest prompt page_number content in
  do output_text <- with_rate_limiter
    (call (EvCreate req) (fun tr => responses_create E tr req));
  do parsed_content <- parse_response_content output_text;
  emit (EvPrint page_number) ;;;
  ret parsed_content.

(** ** The multi-page aggregator *)

(** The dict built at the first line of [extract_multiple_pages_async],
    once the results have been appended to its [response] list. *)
Definition final_response (file_name : string) (results : list pyval) : pyval :=
  PDict [("response", PList results); ("file_name", PStr file_name)].

(** [extract_multiple_pages_async]; [sched] is the order in which the event
    loop completes the page tasks. *)
Definition extract_multiple_pages_async
    (input_type file_name : string) (base64_images text_inputs : list string)
    (combine_pages : bool) (sched : list nat) : M pyval :=
  let base64_images :=
    if false then [String.concat "" base64_images] else base64_images in
  do tasks <-
    (if bool_decide (input_type ∈ ["PDF"; "IMAGE"]) then
       ret (imap (fun idx base64_image =>
                    extract_fields_async input_type base64_image "" idx)
                 base64_images)
     else if bool_decide (input_type = "TEXT") then
       ret (imap (fun idx text =>
                    extract_fields_async input_type "" text idx)
                 text_inputs)
     else raise (ValueError
                   "Unsupported file type. Use 'PDF', 'IMAGE', or 'TEXT'."));
  do results <- gather tasks sched;
  ret (final_response file_name results).

(** ** The multi-document driver *)

(** [limited_task]: the semaphore bounds how many documents are in flight;
    it only delays the coroutine it wraps. *)
Definition limited_task {A} (coro : M A) : M A := coro.

(** The loop of the direct mode: convert each document to page images and
    create its task.  [idx] numbers the documents, [page_sched] gives each
    document the completion order of its pages. *)
Fixpoint pdf_tasks (page_sched : nat -> list nat) (idx : nat)
    (input_paths : list string) : M (list (M pyval)) :=
  match input_paths with
  | [] => ret []
  | pdf_path :: rest =>
      do base64_images <-
        call (EvBase64 pdf_path) (fun tr => base_64_conversation E tr pdf_path);
      let pdf_name := last_component pdf_path in
      let task := limited_task
        (extract_multiple_pages_async "PDF" pdf_name base64_images [] false
                                      (page_sched idx)) in
      do tasks <- pdf_tasks page_sched (S idx) rest;
      ret (task :: tasks)
  end.

(** The loop of the pre-parsed mode, over [zip(parsed_responses,
    input_paths)]. *)
Fixpoint text_tasks (page_sched : nat -> list nat) (idx : nat)
    (pairs : list (pyval * string)) : M (list (M pyval)) :=
  match pairs with
  | [] => ret []
  | (pdf, pdf_path) :: rest =>
      do page_level_text <- lift (retrieve_page_wise_parse E pdf);
      let pdf_name := last_component pdf_path in
      let task := limited_task
        (extract_multiple_pages_async "TEXT" pdf_name [] page_level_text false
                                      (page_sched idx)) in
      do tasks <- text_tasks page_sched (S idx) rest;
      ret (task :: tasks)
  end.

(** [with open(output_path, "w") as f: json.dump(pdf_extraction, f,
    indent=2)].  Opening truncates the file; when the serialization raises,
    the file is left truncated (a partial text is not modelled). *)
Definition write_json (output_path : string) (pdf_extraction : pyval) : M unit :=
  fun s =>
    if can_open_w E output_path then
      match json_dump_indent2 E pdf_extraction with
      | Ok text =>
          (Ok tt, mkState (trace s ++ [EvWrite output_path text])
                          (<[output_path := text]> (files s)))
      | Raise e =>
          (Raise e, mkState (trace s) (<[output_path := ""]> (files s)))
      end
    else (Raise OSError, s).

Fixpoint write_all (pairs : list (pyval * string)) : M unit :=
  match pairs with
  | [] => ret tt
  | (pdf_extraction, output_path) :: rest =>
      write_json output_path pdf_extraction ;;; write_all rest
  end.

(** [extract_multiple_pdfs]; [doc_sched] is the completion order of the
    document tasks. *)
Definition extract_multiple_pdfs
    (input_paths output_paths : list string) (parser save_parse : bool)
    (parsing_json_dir_path : string)
    (doc_sched : list nat) (page_sched : nat -> list nat) : M (list pyval) :=
  do tasks <-
    (if parser then
       do parsed_responses <-
         call (EvLandingParse input_paths)
              (fun tr => landing_ai_vision_parser E tr input_paths save_parse
                                                  parsing_json_dir_path);
       text_tasks page_sched 0 (zip parsed_responses input_paths)
     else pdf_tasks page_sched 0 input_paths);
  do multi_pdf_extraction_result <- gather tasks doc_sched;
  write_all (zip multi_pdf_extraction_result output_paths) ;;;
  ret multi_pdf_extraction_result.

End Orchestrator.

(** ** A concrete environment

    Used to run the definitions: the model answers a page with a short
    text that depends on the page number, the documents have two pages,
    and every file can be opened. *)

(** [json.loads] on the texts used below; any other text is taken to be
    undecodable. *)
Definition demo_json_loads (s : string) : outcome pyval :=
  if String.eqb s "{}" then Ok (PDict [])
  else if String.eqb s "[]" then Ok (PList [])
  else if String.eqb s "null" then Ok PNone
  else Raise JSONDecodeError.

(** [json.dump] with [indent=2]: only document results are written in the
    examples; their text is abbreviated to the file name and the number of
    pages.  Other values are not needed there and are rejected. *)
Definition demo_json_dump (v : pyval) : outcome string :=
  match v with
  | PDict [("response", PList rs); ("file_name", PStr n)] =>
      Ok (n ++ ":" ++ pretty (length rs))
  | _ => Raise TypeError
  end.

Definition demo_create (tr : list event) (r : request) : outcome string :=
  match req_page_number r with
  | 0 => Ok "{}"
  | 1 => Ok "[]"
  | 2 => Ok "fullName: Rajesh Kumar"
  | _ => Raise (ServiceError "connection reset")
  end.

Definition demo_env : Env := {|
  json_loads := demo_json_loads;
  json_dump_indent2 := demo_json_dump;
  responses_create := demo_create;
  responses_parse := fun _ _ => Ok (PObject "ParsedResponse");
  generate_prompt_template := fun c =>
    match c with
    | ExtractionClassT => "fields"
    | AIAgentClassT => "agent"
    | OutputExampleClassT => "example"
    end;
  generate_prompt_from_schema := fun p =>
    ai_agent_information p ++ extract_fields p ++ output_example p;
  base_64_conversation := fun _ path => Ok ["AAAA"; "BBBB"];
  landing_ai_vision_parser := fun _ paths _ _ => Ok (PStr <$> paths);
  retrieve_page_wise_parse := fun v =>
    match v with
    | PStr p => Ok [p]
    | _ => Raise TypeError
    end;
  can_open_w := fun _ => true
|}.

Definition init : state := mkState [] ∅.

(** ** The HTTP endpoint of [answer_extraction.py] *)

(** The exceptions of this layer: those of its own dict and list accesses,
    and those that come up from the orchestrator. *)
Inductive py_error :=
  | KeyError (key : pyval)
  | AttributeError (obj : pyval) (attribute : string)
  | IndexError
  | OtherError (description : string)
  | Core (e : exn).

Inductive checked (A : Type) :=
  | Fine (a : A)
  | Fails (e : py_error).
Arguments Fine {A} a.
Arguments Fails {A} e.

(** What the client receives: the body of a [JSONResponse] (status 200),
    or the detail of the [HTTPException] with status 500. *)
Inductive http_result :=
  | Response200 (body : string)
  | Error500 (detail : string).

(** The operations of the Python run time and of the web framework that
    the endpoint relies on. *)
Record Web := mkWeb {
  (** [str.capitalize]. *)
  str_capitalize : string -> string;
  (** [str(v)] for a value that is not a string, as an f-string formats
      it. *)
  py_str : pyval -> string;
  (** [str(e)] of an exception, the detail of the error response. *)
  error_text : py_error -> string;
  (** The rendering of the content of a [JSONResponse]; it raises for a
      value that is not serializable. *)
  render_json : pyval -> outcome string;
  (** [v[0]] for a value that is neither a list nor a dict, and the
      exception of [v.pop("page", None)] for a value that is not a dict;
      the aggregator returns a dict whose [response] is a list, so that
      the endpoint reaches neither. *)
  index0_other : pyval -> checked pyval;
  pop_other : pyval -> py_error
}.

(** A dict with string keys; a key occurs once. *)
Definition dict := list (string * pyval).

(** [d[key]]. *)
Fixpoint dict_get (d : dict) (key : string) : checked pyval :=
  match d with
  | [] => Fails (KeyError (PStr key))
  | (k, v) :: rest => if String.eqb k key then Fine v else dict_get rest key
  end.

(** [d.pop(key, None)], for the dict that remains. *)
Definition dict_pop (d : dict) (key : string) : dict :=
  filter (fun kv => kv.1 <> key) d.

Section Endpoint.

Variable W : Web.
Variable E : Env.

(** The line feed. *)
Definition newline : Ascii.ascii := "010"%char.

(** [f"{c['role'].capitalize()}: {c['message']}"]. *)
Definition turn_line (c : dict) : checked string :=
  match dict_get c "role" with
  | Fails e => Fails e
  | Fine (PStr role) =>
      match dict_get c "message" with
      | Fails e => Fails e
      | Fine (PStr message) => Fine (str_capitalize W role ++ ": " ++ message)
      | Fine v => Fine (str_capitalize W role ++ ": " ++ py_str W v)
      end
  | Fine v => Fails (AttributeError v "capitalize")
  end.

(** The lines of the turns, up to the first turn that raises. *)
Fixpoint turn_lines (conversations : list dict) : checked (list string) :=
  match conversations with
  | [] => Fine []
  | c :: rest =>
      match turn_line c with
      | Fails e => Fails e
      | Fine line =>
          match turn_lines rest with
          | Fails e => Fails e
          | Fine lines => Fine (line :: lines)
          end
      end
  end.

(** [format_transcript]. *)
Definition format_transcript (conversations : list dict) : checked string :=
  match turn_lines conversations with
  | Fails e => Fails e
  | Fine lines => Fine (String.concat (String newline EmptyString) lines)
  end.

(** [json_output["response"][0]] after [json_output.pop("page", None)]. *)
Definition first_response (json_output : pyval) : checked pyval :=
  match json_output with
  | PDict d =>
      match dict_get (dict_pop d "page") "response" with
      | Fails e => Fails e
      | Fine (PList (r :: _)) => Fine r
      | Fine (PList []) => Fails IndexError
      | Fine (PDict _) => Fails (KeyError (PInt 0))
      | Fine v => index0_other W v
      end
  | v => Fails (pop_other W v)
  end.

(** [summarize_transcript]: every exception raised in the body becomes an
    [HTTPException] with status 500 and the text of the exception. *)
Definition summarize_transcript (request : list dict) (sched : list nat)
    : state -> http_result * state :=
  fun s =>
    match format_transcript request with
    | Fails e => (Error500 (error_text W e), s)
    | Fine formatted_text =>
        match extract_multiple_pages_async E "TEXT" "conversations" []
                [formatted_text] false sched s with
        | (Raise e, s') => (Error500 (error_text W (Core e)), s')
        | (Ok json_output, s') =>
            match first_response json_output with
            | Fails e => (Error500 (error_text W e), s')
            | Fine content =>
                match render_json W content with
                | Raise e => (Error500 (error_text W (Core e)), s')
                | Ok body => (Response200 body, s')
                end
            end
        end
    end.

End Endpoint.

(** ** Vocabulary of the properties *)

(** A task returns [x] from some state, or raises [e] from some state. *)
Definition returns {A} (t : M A) (x : A) : Prop :=
  exists s s', t s = (Ok x, s').

Definition raises {A} (t : M A) (e : exn) : Prop :=
  exists s s', t s = (Raise e, s').

(** The input kinds the code accepts: ["PDF"] and ["IMAGE"] (a document
    image) and ["TEXT"] (plain text). *)
Definition supported (input_type : string) : Prop :=
  input_type ∈ ["PDF"; "IMAGE"; "TEXT"].

#[global] Instance supported_dec input_type : Decision (supported input_type) :=
  list_elem_of_dec input_type ["PDF"; "IMAGE"; "TEXT"].

(** A computation is quiet when it writes no file: the file system and the
    writes recorded in the trace are as before, whatever its outcome. *)
Definition quiet {A} (m : M A) : Prop :=
  forall s, files (m s).2 = files s /\ writes (m s).2 = writes s.

(** Writing a sequence of files one after the other: the last write to a
    path decides its content. *)
Definition write_sequence (fs : gmap string string)
    (kvs : list (string * string)) : gmap string string :=
  foldl (fun m kv => <[kv.1 := kv.2]> m) fs kvs.

Section Vocabulary.

Variable E : Env.

(** The pages of a document: the images for "PDF" and "IMAGE", the texts
    otherwise. *)
Definition pages_of (input_type : string)
    (base64_images text_inputs : list string) : list string :=
  if bool_decide (input_type ∈ ["PDF"; "IMAGE"]) then base64_images
  else text_inputs.

(** The extraction of page [idx], as the aggregator creates it. *)
Definition page_task (input_type page : string) (idx : nat) : M pyval :=
  if bool_decide (input_type ∈ ["PDF"; "IMAGE"])
  then extract_fields_async E input_type page "" idx
  else extract_fields_async E input_type "" page idx.

(** A task of the driver: the aggregation of one document, named after the
    last component of its path. *)
Definition document_task (pdf_path : string) (t : M pyval) : Prop :=
  exists input_type base64_images text_inputs sched,
    t = extract_multiple_pages_async E input_type (last_component pdf_path)
          base64_images text_inputs false sched.

(** The first half of the driver, up to the creation of the tasks. *)
Definition driver_tasks (input_paths : list string) (parser save_parse : bool)
    (parsing_json_dir_path : string) (page_sched : nat -> list nat)
    : M (list (M pyval)) :=
  if parser then
    bind (call (EvLandingParse input_paths)
               (fun tr => landing_ai_vision_parser E tr input_paths save_parse
                                                   parsing_json_dir_path))
         (fun parsed_responses =>
            text_tasks E page_sched 0 (zip parsed_responses input_paths))
  else pdf_tasks E page_sched 0 input_paths.

(** The parser returns one parsed result per document. *)
Definition parser_total (input_paths : list string) (save_parse : bool)
    (dir : string) : Prop :=
  forall tr parsed,
    landing_ai_vision_parser E tr input_paths save_parse dir = Ok parsed ->
    length parsed = length input_paths.

End Vocabulary.

(** A batch of two documents in the pre-parsed mode. *)
Definition demo_batch_run : outcome (list pyval) * state :=
  extract_multiple_pdfs demo_env
    ["docs/152.pdf"; "docs/1234.pdf"]
    ["out/152.json"; "out/1234.json"] true false ""
    [1; 0] (fun _ => []) init.

(** Three input paths and two output paths, in the direct mode. *)
Definition demo_mismatch_run : outcome (list pyval) * state :=
  extract_multiple_pdfs demo_env
    ["docs/152.pdf"; "docs/152_double.pdf"; "docs/1234.pdf"]
    ["out/152.json"; "out/152_double.json"] false false ""
    [] (fun _ => []) init.

(** ** Vocabulary of the further properties *)

(** The state after an effect has been recorded. *)
Definition logged (s : state) (evs : list event) : state :=
  mkState (trace s ++ evs) (files s).

(** The request the page extractor sends for a page: the prompt built from
    the three templates, the page number, and the image as a data URL (for
    "PDF" and "IMAGE") or the text. *)
Definition page_request (E : Env) (input_type base_64 text_input : string)
    (page_number : nat) : request :=
  mkRequest
    (generate_prompt_from_schema E
       (mkPromptSchema (generate_prompt_template E AIAgentClassT)
                       (generate_prompt_template E ExtractionClassT)
                       (generate_prompt_template E OutputExampleClassT)))
    page_number
    (if bool_decide (input_type ∈ ["PDF"; "IMAGE"])
     then InputImage ("data:image/jpeg;base64," ++ base_64)
     else InputText text_input).

(** The concrete environment with another answer of the coercion call. *)
Definition demo_env_repair (answer : outcome pyval) : Env := {|
  json_loads := json_loads demo_env;
  json_dump_indent2 := json_dump_indent2 demo_env;
  responses_create := responses_create demo_env;
  responses_parse := fun _ _ => answer;
  generate_prompt_template := generate_prompt_template demo_env;
  generate_prompt_from_schema := generate_prompt_from_schema demo_env;
  base_64_conversation := base_64_conversation demo_env;
  landing_ai_vision_parser := landing_ai_vision_parser demo_env;
  retrieve_page_wise_parse := retrieve_page_wise_parse demo_env;
  can_open_w := can_open_w demo_env
|}.

(** The record of the sample transcript of [answer_extraction.py]. *)
Definition rajesh : ExtractionClass := {|
  fullName := "Rajesh Kumar";
  address := "Mumbai, Maharashtra";
  loanType := "Home Loan";
  loanAmount := "25 lakhs";
  emiComfort := "25,000";
  monthlyObligations := "10,000";
  incomeSource := "salaried";
  salaryAmount := "1,00,000";
  designationEmployer := "Senior Engineer, Infosys";
  otherIncomeSources := "rental income";
  businessRevenue := "NA";
  businessProfit := "NA";
  businessSalary := "NA";
  atPropertyLocation := "yes";
  propertyAddress := "Andheri, Mumbai";
  propertyType := "residential flat";
  propertyStructure := "NA";
  propertyUsage := "self-occupied";
  landArea := "NA";
  marketValue := "90 lakhs";
  existingLoan := "no";
  existingLoanEmi := "NA"
|}.

(** The extraction requests and the completion lines recorded so far. *)
Definition create_of (ev : event) : option request :=
  match ev with
  | EvCreate r => Some r
  | _ => None
  end.

Definition create_requests (s : state) : list request :=
  omap create_of (trace s).

Definition print_of (ev : event) : option nat :=
  match ev with
  | EvPrint n => Some n
  | _ => None
  end.

Definition printed_pages (s : state) : list nat :=
  omap print_of (trace s).

(** The requests the aggregator has to send for the pages of a document. *)
Definition page_requests (E : Env) (input_type : string)
    (pages : list string) : list request :=
  imap (fun idx page =>
          if bool_decide (input_type ∈ ["PDF"; "IMAGE"])
          then page_request E input_type page "" idx
          else page_request E input_type "" page idx) pages.

(** Task [t], at position [i], adds to the [f]-events of the trace a list
    that satisfies [R i] whenever it returns. *)
Definition adds {A B} (f : event -> option B) (R : nat -> list B -> Prop)
    (i : nat) (t : M A) : Prop :=
  forall s x s',
    t s = (Ok x, s') ->
    exists added,
      omap f (trace s') = (omap f (trace s) ++ added)%list /\ R i added.

(** A model service whose answers do not depend on what happened before
    (a deterministic model, or a mock). *)
Definition history_independent (E : Env) : Prop :=
  (forall tr1 tr2 req, responses_create E tr1 req = responses_create E tr2 req)
  /\ (forall tr1 tr2 raw, responses_parse E tr1 raw = responses_parse E tr2 raw).

(** A task whose outcome does not depend on the state it starts from. *)
Definition stateless {A} (t : M A) : Prop :=
  forall s1 s2, (t s1).1 = (t s2).1.

(** The concrete environment with documents of several kinds: one that
    cannot be read, one of four pages, the others of two pages. *)
Definition demo_convert (path : string) : outcome (list string) :=
  if String.eqb path "docs/missing.pdf" then Raise OSError
  else if String.eqb path "docs/long.pdf"
       then Ok ["AAAA"; "BBBB"; "CCCC"; "DDDD"]
       else Ok ["AAAA"; "BBBB"].

Definition demo_env_convert : Env := {|
  json_loads := json_loads demo_env;
  json_dump_indent2 := json_dump_indent2 demo_env;
  responses_create := responses_create demo_env;
  responses_parse := responses_parse demo_env;
  generate_prompt_template := generate_prompt_template demo_env;
  generate_prompt_from_schema := generate_prompt_from_schema demo_env;
  base_64_conversation := fun _ path => demo_convert path;
  landing_ai_vision_parser := fun _ paths _ _ =>
    Ok ((fun p => if String.eqb p "docs/scan.pdf" then PNone else PStr p)
          <$> paths);
  retrieve_page_wise_parse := retrieve_page_wise_parse demo_env;
  can_open_w := can_open_w demo_env
|}.

(** The number of occurrences of a character in a string. *)
Fixpoint count_char (c : Ascii.ascii) (s : string) : nat :=
  match s with
  | EmptyString => 0
  | String a r => (if Ascii.eqb a c then 1 else 0) + count_char c r
  end.

(** [str.capitalize] on ASCII text: the first letter in upper case, the
    others in lower case. *)
Definition upper_ascii (c : Ascii.ascii) : Ascii.ascii :=
  let n := Ascii.nat_of_ascii c in
  if Nat.leb 97 n && Nat.leb n 122 then Ascii.ascii_of_nat (n - 32) else c.

Definition lower_ascii (c : Ascii.ascii) : Ascii.ascii :=
  let n := Ascii.nat_of_ascii c in
  if Nat.leb 65 n && Nat.leb n 90 then Ascii.ascii_of_nat (n + 32) else c.

Fixpoint lower_string (s : string) : string :=
  match s with
  | EmptyString => EmptyString
  | String c r => String (lower_ascii c) (lower_string r)
  end.

Definition capitalize_ascii (s : string) : string :=
  match s with
  | EmptyString => EmptyString
  | String c r => String (upper_ascii c) (lower_string r)
  end.

(** A concrete run time for the examples. *)
Definition demo_web : Web := {|
  str_capitalize := capitalize_ascii;
  py_str := fun v =>
    match v with
    | PNone => "None"
    | PBool true => "True"
    | PBool false => "False"
    | PInt z => pretty z
    | _ => "<object>"
    end;
  error_text := fun e =>
    match e with
    | KeyError (PStr k) => "'" ++ k ++ "'"
    | Core (ValueError msg) => msg
    | Core (ServiceError msg) => msg
    | IndexError => "list index out of range"
    | _ => "error"
    end;
  render_json := fun v =>
    match v with
    | PDict [] => Ok "{}"
    | PList [] => Ok "[]"
    | _ => Raise TypeError
    end;
  index0_other := fun _ => Fails (OtherError "not subscriptable");
  pop_other := fun _ => OtherError "no pop"
|}.

(** The first two turns of the sample transcript. *)
Definition sample_turns : list dict :=
  [ [("id", PStr "1"); ("role", PStr "bot");
     ("message", PStr "First of all, what is your full name?")];
    [("id", PStr "2"); ("role", PStr "user");
     ("message", PStr "Hi, my name is Rajesh Kumar.")] ].

(** The concrete environment with a model that gives the same answer to
    every extraction request. *)
Definition demo_env_answer (answer : outcome string) : Env := {|
  json_loads := json_loads demo_env;
  json_dump_indent2 := json_dump_indent2 demo_env;
  responses_create := fun _ _ => answer;
  responses_parse := responses_parse demo_env;
  generate_prompt_template := generate_prompt_template demo_env;
  generate_prompt_from_schema := generate_prompt_from_schema demo_env;
  base_64_conversation := base_64_conversation demo_env;
  landing_ai_vision_parser := landing_ai_vision_parser demo_env;
  retrieve_page_wise_parse := retrieve_page_wise_parse demo_env;
  can_open_w := can_open_w demo_env
|}.

(** * Properties *)

Local Open Scope list_scope.

(** ** [gather] *)

Section GatherFacts.

Context {A : Type}.
Implicit Types (pending : list (nat * M A)) (done : list (nat * A)).

Lemma result_at_elem i x done :
  result_at i done = Some x -> (i, x) ∈ done.
Proof.
  induction done as [|[j y] done IH]; simpl; [done|].
  case_bool_decide as Hij.
  - intros [= ->]. subst j. left.
  - intros H. right. by apply IH.
Qed.

Lemma result_at_is_Some i done :
  i ∈ done.*1 -> is_Some (result_at i done).
Proof.
  induction done as [|[j y] done IH]; simpl.
  - by intros ?%elem_of_nil.
  - case_bool_decide as Hij; [by eexists|].
    intros [?|?]%elem_of_cons; [done|by apply IH].
Qed.

Lemma omap_total {B C} (f : B -> option C) (l : list B) :
  (forall b, b ∈ l -> is_Some (f b)) ->
  Forall2 (fun b c => f b = Some c) l (omap f l).
Proof.
  induction l as [|b l IH]; intros Hl; simpl; [constructor|].
  destruct (Hl b) as [c Hc]; [left|]. rewrite Hc.
  constructor; [done|]. apply IH. intros b' Hb'. apply Hl. by right.
Qed.

Lemma numbered_fst (tasks : list (M A)) :
  (imap (fun i t => (i, t)) tasks).*1 = seq 0 (length tasks).
Proof.
  apply list_eq. intros i.
  rewrite list_lookup_fmap, list_lookup_imap.
  destruct (tasks !! i) as [t|] eqn:Ht; simpl.
  - symmetry. apply lookup_seq. split; [done|]. by eapply lookup_lt_Some.
  - symmetry. apply lookup_seq_ge. apply lookup_ge_None in Ht. lia.
Qed.

Lemma numbered_elem (tasks : list (M A)) i t :
  (i, t) ∈ imap (fun i t => (i, t)) tasks <-> tasks !! i = Some t.
Proof.
  rewrite elem_of_lookup_imap. split.
  - intros (j & y & [= -> ->] & Hj). done.
  - intros H. by exists i, t.
Qed.

(** Every pending task is run; a finished one is stored with its own
    position; the first exception is that of a pending task. *)
Lemma complete_all_spec n pending sched done s :
  length pending = n ->
  match complete_all n pending sched done s with
  | (Ok d, _) =>
      exists new, d = new ++ done /\ new.*1 ≡ₚ pending.*1 /\
        Forall (fun ix => exists t, (ix.1, t) ∈ pending /\ returns t ix.2) new
  | (Raise e, _) => exists i t, (i, t) ∈ pending /\ raises t e
  end.
Proof.
  revert pending sched done s.
  induction n as [|n IH]; intros pending sched done s Hlen; simpl.
  - destruct pending; [|done]. exists []. by repeat split.
  - set (k := hd 0 sched `mod` length pending).
    assert (k < length pending) as Hk
      by (apply Nat.mod_upper_bound; lia).
    destruct (pending !! k) as [[i t]|] eqn:Hlk;
      [|apply lookup_ge_None in Hlk; lia].
    pose proof (delete_Permutation _ _ _ Hlk) as Hperm.
    unfold bind. destruct (t s) as [[x|e] s1] eqn:Hts.
    + specialize (IH (delete k pending) (tl sched) ((i, x) :: done) s1).
      destruct (complete_all n _ _ _ s1) as [[d|e] s2].
      * destruct IH as (new & -> & Hp & Hall).
        { rewrite length_delete by eauto. lia. }
        exists (new ++ [(i, x)]). split; [by rewrite <- app_assoc|]. split.
        -- rewrite fmap_app, Hp, Permutation_app_comm. simpl.
           symmetry. exact (fmap_Permutation fst _ _ Hperm).
        -- apply Forall_app. split.
           ++ eapply Forall_impl; [exact Hall|].
              intros ix (t' & Hin & Hr). exists t'. split; [|done].
              by eapply list_elem_of_delete_inv.
           ++ constructor; [|constructor]. exists t. split.
              ** by eapply list_elem_of_lookup_2.
              ** by exists s, s1.
      * destruct IH as (j & t' & Hin & Hr).
        { rewrite length_delete by eauto. lia. }
        exists j, t'. split; [|done]. by eapply list_elem_of_delete_inv.
    + exists i, t. split; [by eapply list_elem_of_lookup_2|by exists s, s1].
Qed.

(** The results of [gather] are positional whatever the schedule; its
    exception is raised by one of the tasks. *)
Lemma gather_spec (tasks : list (M A)) sched s :
  match gather tasks sched s with
  | (Ok rs, _) => Forall2 returns tasks rs
  | (Raise e, _) => exists t, t ∈ tasks /\ raises t e
  end.
Proof.
  unfold gather, bind.
  pose proof (complete_all_spec (length tasks)
                (imap (fun i t => (i, t)) tasks) sched [] s) as H.
  destruct (complete_all _ _ _ _ s) as [[d|e] s1]; simpl.
  - destruct H as (new & -> & Hp & Hall); [by rewrite length_imap|].
    rewrite app_nil_r. rewrite numbered_fst in Hp.
    assert (Forall2 (fun i r => result_at i new = Some r)
              (seq 0 (length tasks))
              (omap (fun i => result_at i new) (seq 0 (length tasks)))) as HF.
    { apply omap_total. intros i Hi. apply result_at_is_Some.
      by rewrite Hp. }
    apply Forall2_same_length_lookup_2.
    + apply Forall2_length in HF. by rewrite length_seq in HF.
    + intros i t r Ht Hr.
      destruct (Forall2_lookup_r _ _ _ _ _ HF Hr) as (j & Hj & Hres).
      apply lookup_seq in Hj as [-> _]. simpl in Hres.
      apply result_at_elem in Hres.
      rewrite Forall_forall in Hall.
      destruct (Hall _ Hres) as (t' & Hin & Hret). simpl in *.
      apply numbered_elem in Hin. by simplify_eq.
  - destruct H as (i & t & Hin & Hr); [by rewrite length_imap|].
    exists t. split; [|done]. apply numbered_elem in Hin.
    by eapply list_elem_of_lookup_2.
Qed.

End GatherFacts.

(** ** The page extractor and the response repair *)

Section PageFacts.

Variable E : Env.

Lemma supported_iff input_type :
  supported input_type <-> input_type ∈ ["PDF"; "IMAGE"] \/ input_type = "TEXT".
Proof. unfold supported. rewrite !elem_of_cons, !elem_of_nil. tauto. Qed.

(** What a successful repair returns. *)
Lemma parse_response_content_Ok raw s v s' :
  parse_response_content E raw s = (Ok v, s') ->
  json_loads E raw = Ok v \/
  (json_loads E raw = Raise JSONDecodeError /\
   exists r, responses_parse E (trace s) raw = Ok r /\
     v = if truthy r && isinstance_ExtractionClass r then r else PDict []).
Proof.
  unfold parse_response_content, bind, with_rate_limiter, call, ret, raise.
  destruct (json_loads E raw) as [w|e] eqn:Hj.
  - intros [= <- <-]. by left.
  - destruct e; try discriminate.
    destruct (responses_parse E (trace s) raw) as [r|e] eqn:Hp;
      [|discriminate].
    intros H. right. split; [done|]. exists r. split; [done|].
    destruct (truthy r && isinstance_ExtractionClass r);
      by injection H as <- <-.
Qed.

(** A successful page extraction, step by step: the model answered
    [output_text]; either [json.loads] decoded it, or it raised
    [JSONDecodeError], the coercion call yielded [r], and the result is
    [r] when it is an [ExtractionClass] instance and the empty dict
    otherwise. *)
Lemma extract_fields_async_Ok input_type base_64 text_input page s v s' :
  extract_fields_async E input_type base_64 text_input page s = (Ok v, s') ->
  exists req output_text,
    responses_create E (trace s) req = Ok output_text /\
    (json_loads E output_text = Ok v \/
     (json_loads E output_text = Raise JSONDecodeError /\
      exists r, responses_parse E (trace s ++ [EvCreate req]) output_text = Ok r /\
        v = if truthy r && isinstance_ExtractionClass r then r
            else PDict [])).
Proof.
  unfold extract_fields_async.
  set (prompt := generate_prompt_from_schema E _).
  intros H.
  assert (exists c, bind (with_rate_limiter
             (call (EvCreate (mkRequest prompt page c))
                (fun tr => responses_create E tr (mkRequest prompt page c))))
           (fun output_text =>
              bind (parse_response_content E output_text)
                (fun parsed_content =>
                   bind (emit (EvPrint page)) (fun _ => ret parsed_content)))
           s = (Ok v, s')) as [c Hrun].
  { unfold bind at 1 in H. unfold ret, raise in H.
    repeat case_bool_decide; try discriminate; by eexists. }
  clear H. exists (mkRequest prompt page c).
  unfold bind at 1, with_rate_limiter, call in Hrun.
  destruct (responses_create E (trace s) _) as [out|e] eqn:Hc; [|discriminate].
  exists out. split; [done|].
  unfold bind at 1 in Hrun.
  destruct (parse_response_content E out _) as [[w|e] s1] eqn:Hp;
    [|discriminate].
  unfold bind, emit, ret in Hrun. injection Hrun as <- <-.
  by apply parse_response_content_Ok in Hp.
Qed.

End PageFacts.

(** C5. For every input kind other than "PDF", "IMAGE" (a document image)
    and "TEXT" (plain text), for instance "CSV", [extract_fields_async]
    raises [ValueError] and leaves the state as it was: the trace gains no
    event, so no request has been sent to the model. *)
Theorem extract_fields_async_unsupported
    (E : Env) (input_type base_64 text_input : string) (page : nat) (s : state) :
  ~ supported input_type ->
  extract_fields_async E input_type base_64 text_input page s
  = (Raise (ValueError "Unsupported file type. Use 'PDF' or 'IMAGE'."), s)
  /\ model_calls
       (extract_fields_async E input_type base_64 text_input page s).2
     = model_calls s.
Proof.
  intros Hns.
  assert (extract_fields_async E input_type base_64 text_input page s
    = (Raise (ValueError "Unsupported file type. Use 'PDF' or 'IMAGE'."), s))
    as Heq.
  { unfold extract_fields_async, bind, raise.
    case_bool_decide as H1; [exfalso; apply Hns, supported_iff; by left|].
    case_bool_decide as H2; [exfalso; apply Hns, supported_iff; by right|].
    done. }
  by rewrite Heq.
Qed.

Lemma extract_fields_async_unsupported_witness :
  extract_fields_async demo_env "CSV" "" "a,b" 0 init
  = (Raise (ValueError "Unsupported file type. Use 'PDF' or 'IMAGE'."), init)
  /\ model_calls (extract_fields_async demo_env "CSV" "" "a,b" 0 init).2
     = model_calls init.
Proof.
  apply (extract_fields_async_unsupported demo_env "CSV" "" "a,b" 0 init).
  exact (bool_decide_unpack (~ supported "CSV") I).
Defined.

(** C6. When [json.loads] accepts the raw text, [parse_response_content]
    returns the decoded value and leaves the state as it was (no model
    call is recorded); the outcome does not depend on the state the call
    starts from, so two runs on the same text agree. *)
Theorem parse_response_content_fast_path
    (E : Env) (raw : string) (v : pyval) (s1 s2 : state) :
  json_loads E raw = Ok v ->
  parse_response_content E raw s1 = (Ok v, s1)
  /\ model_calls (parse_response_content E raw s1).2 = model_calls s1
  /\ (parse_response_content E raw s1).1 = (parse_response_content E raw s2).1.
Proof.
  intros Hj. unfold parse_response_content. rewrite Hj. by repeat split.
Qed.

Lemma parse_response_content_fast_path_witness :
  parse_response_content demo_env "[]" init = (Ok (PList []), init)
  /\ model_calls (parse_response_content demo_env "[]" init).2
     = model_calls init
  /\ (parse_response_content demo_env "[]" init).1
     = (parse_response_content demo_env "[]"
          (mkState [EvPrint 7] {["o" := "x"]})).1.
Proof.
  apply (parse_response_content_fast_path demo_env "[]" (PList []) init
           (mkState [EvPrint 7] {["o" := "x"]})).
  reflexivity.
Defined.

(** C4. When [json.loads] raises [JSONDecodeError] on the raw text and the
    coercion call yields a value that does not conform to the schema or is
    not an [ExtractionClass] instance, [parse_response_content] returns the
    empty dict; it does not raise. *)
Theorem parse_response_content_degrades
    (E : Env) (raw : string) (r : pyval) (s : state) :
  json_loads E raw = Raise JSONDecodeError ->
  responses_parse E (trace s) raw = Ok r ->
  conforms r = false \/ isinstance_ExtractionClass r = false ->
  (parse_response_content E raw s).1 = Ok (PDict []).
Proof.
  intros Hj Hp Hr.
  assert (isinstance_ExtractionClass r = false) as Hi.
  { destruct Hr as [Hr|Hr]; [|done]. by destruct r. }
  unfold parse_response_content, bind, with_rate_limiter, call.
  rewrite Hj, Hp, Hi, andb_false_r. done.
Qed.

Lemma parse_response_content_degrades_witness :
  (parse_response_content demo_env "fullName: Rajesh Kumar" init).1
  = Ok (PDict []).
Proof.
  apply (parse_response_content_degrades demo_env "fullName: Rajesh Kumar"
           (PObject "ParsedResponse") init).
  - reflexivity.
  - reflexivity.
  - left. reflexivity.
Defined.

(** C3, as stated, fails: the model answers page 0 of a text document with
    the text [{}], which [json.loads] decodes to the empty dict; the
    extraction succeeds and returns it, although it has none of the
    twenty-two fields. *)
Lemma extract_fields_async_unchecked_record :
  ~ (forall (E : Env) (input_type base_64 text_input : string) (page : nat)
            (s s' : state) (v : pyval),
       extract_fields_async E input_type base_64 text_input page s = (Ok v, s') ->
       conforms v = true).
Proof.
  intros H.
  specialize (H demo_env "TEXT" "" "Mera naam Rajesh Kumar hai" 0 init
    (extract_fields_async demo_env "TEXT" ""
       "Mera naam Rajesh Kumar hai" 0 init).2
    (PDict []) eq_refl).
  vm_compute in H. discriminate H.
Qed.

(** C3, amended. A successful page extraction returns one of three things:
    the value [json.loads] decoded from the model's answer, returned
    without any check against the schema; or, when the answer is not JSON,
    an [ExtractionClass] instance, which has exactly the twenty-two fields,
    each a string; or the empty dict. *)
Theorem extract_fields_async_result
    (E : Env) (input_type base_64 text_input : string) (page : nat)
    (s s' : state) (v : pyval) :
  extract_fields_async E input_type base_64 text_input page s = (Ok v, s') ->
  exists req output_text,
    responses_create E (trace s) req = Ok output_text /\
    (json_loads E output_text = Ok v \/
     (json_loads E output_text = Raise JSONDecodeError /\
      ((exists e, v = PModel e /\ conforms v = true /\
                  record_keys v = Some ExtractionClass_fields /\
                  length ExtractionClass_fields = 22) \/
       v = PDict []))).
Proof.
  intros H. apply extract_fields_async_Ok in H
    as (req & out & Hc & [Hj|(Hj & r & Hp & ->)]).
  - exists req, out. split; [done|]. by left.
  - exists req, out. split; [done|]. right. split; [done|].
    destruct r; simpl; try (by right); try (rewrite andb_false_r; by right).
    left. by exists e.
Qed.

Lemma extract_fields_async_result_witness :
  exists req output_text,
    responses_create demo_env (trace init) req = Ok output_text /\
    (json_loads demo_env output_text = Ok (PList []) \/
     (json_loads demo_env output_text = Raise JSONDecodeError /\
      ((exists e, PList [] = PModel e /\ conforms (PList []) = true /\
                  record_keys (PList []) = Some ExtractionClass_fields /\
                  length ExtractionClass_fields = 22) \/
       PList [] = PDict []))).
Proof.
  apply (extract_fields_async_result demo_env "PDF" "AAAA" "" 1 init
           (extract_fields_async demo_env "PDF" "AAAA" "" 1 init).2
           (PList [])).
  reflexivity.
Defined.

(** ** The multi-page aggregator *)

(** C9. [extract_multiple_pages_async] does the same whether
    [combine_pages] is true or false: the branch that would join the pages
    is guarded by a constant false, and the flag is read nowhere else. *)
Theorem extract_multiple_pages_async_combine_pages_unused
    (E : Env) (input_type file_name : string)
    (base64_images text_inputs : list string) (sched : list nat) :
  extract_multiple_pages_async E input_type file_name base64_images
                               text_inputs true sched
  = extract_multiple_pages_async E input_type file_name base64_images
                                 text_inputs false sched.
Proof. reflexivity. Qed.

Lemma gather_nil {A} (sched : list nat) (s : state) :
  gather (A := A) [] sched s = (Ok [], s).
Proof. reflexivity. Qed.

(** C10. For a supported input kind and no page of that kind (no image for
    "PDF" or "IMAGE", no text for "TEXT"), [extract_multiple_pages_async]
    returns the dict with an empty [response] list and the file name; the
    state is as it was, so no page was extracted and no request sent. *)
Theorem extract_multiple_pages_async_no_pages
    (E : Env) (input_type file_name : string)
    (base64_images text_inputs : list string) (combine_pages : bool)
    (sched : list nat) (s : state) :
  (input_type ∈ ["PDF"; "IMAGE"] /\ base64_images = []) \/
  (input_type = "TEXT" /\ text_inputs = []) ->
  extract_multiple_pages_async E input_type file_name base64_images
                               text_inputs combine_pages sched s
  = (Ok (PDict [("response", PList []); ("file_name", PStr file_name)]), s).
Proof.
  intros [[Hk ->]|[-> ->]]; unfold extract_multiple_pages_async, bind.
  - rewrite bool_decide_eq_true_2 by done. reflexivity.
  - reflexivity.
Qed.

Lemma extract_multiple_pages_async_no_pages_witness :
  extract_multiple_pages_async demo_env "TEXT" "conversations" ["AAAA"] []
                               false [3; 1] init
  = (Ok (PDict [("response", PList []);
                ("file_name", PStr "conversations")]), init).
Proof.
  apply (extract_multiple_pages_async_no_pages demo_env "TEXT" "conversations"
           ["AAAA"] [] false [3; 1] init).
  right. split; reflexivity.
Defined.

Section AggregatorFacts.

Variable E : Env.

Lemma extract_multiple_pages_async_unfold
    input_type file_name base64_images text_inputs combine_pages sched :
  supported input_type ->
  extract_multiple_pages_async E input_type file_name base64_images
                               text_inputs combine_pages sched
  = bind (gather (imap (fun idx page => page_task E input_type page idx)
                       (pages_of input_type base64_images text_inputs))
                 sched)
         (fun results => ret (final_response file_name results)).
Proof.
  intros Hs%supported_iff.
  unfold extract_multiple_pages_async, pages_of, page_task.
  case_bool_decide as H1; [done|].
  destruct Hs as [?| ->]; [done|]. done.
Qed.

End AggregatorFacts.

(** C2. For a supported input kind and N pages whose extractions all
    succeed, [extract_multiple_pages_async] returns, whatever the order
    [sched] in which the page tasks complete, a dict whose [response] list
    has length N and holds at position i a value returned by the
    extraction of page i. *)
Theorem extract_multiple_pages_async_order
    (E : Env) (input_type file_name : string)
    (base64_images text_inputs : list string) (combine_pages : bool)
    (sched : list nat) (s : state) :
  supported input_type ->
  (forall i page s0,
     pages_of input_type base64_images text_inputs !! i = Some page ->
     exists v s1, page_task E input_type page i s0 = (Ok v, s1)) ->
  exists rs s',
    extract_multiple_pages_async E input_type file_name base64_images
                                 text_inputs combine_pages sched s
    = (Ok (PDict [("response", PList rs); ("file_name", PStr file_name)]), s')
    /\ length rs = length (pages_of input_type base64_images text_inputs)
    /\ forall i page,
         pages_of input_type base64_images text_inputs !! i = Some page ->
         exists r, rs !! i = Some r /\
                   returns (page_task E input_type page i) r.
Proof.
  intros Hs Hall.
  rewrite extract_multiple_pages_async_unfold by done.
  set (pages := pages_of input_type base64_images text_inputs) in *.
  set (tasks := imap (fun idx page => page_task E input_type page idx) pages).
  pose proof (gather_spec tasks sched s) as Hg.
  unfold bind. destruct (gather tasks sched s) as [[rs|e] s1].
  - exists rs, s1. split; [done|].
    pose proof (Forall2_length _ _ _ Hg) as Hlen.
    unfold tasks in Hlen. rewrite length_imap in Hlen. split; [done|].
    intros i page Hi.
    assert (tasks !! i = Some (page_task E input_type page i)) as Ht.
    { unfold tasks. by rewrite list_lookup_imap, Hi. }
    destruct (Forall2_lookup_l _ _ _ _ _ Hg Ht) as (r & Hr & Hret).
    by exists r.
  - exfalso. destruct Hg as (t & Hin & s0 & s2 & Hraise).
    unfold tasks in Hin. apply elem_of_lookup_imap in Hin
      as (i & page & -> & Hi).
    destruct (Hall i page s0 Hi) as (v & s3 & Hok). congruence.
Qed.

(** C7. For a supported input kind and a document with a page whose
    extraction raises, [extract_multiple_pages_async] raises, whatever the
    schedule, an exception raised by the extraction of one of the pages (of
    that page when no other page raises); it returns no dict. *)
Theorem extract_multiple_pages_async_page_failure
    (E : Env) (input_type file_name : string)
    (base64_images text_inputs : list string) (combine_pages : bool)
    (sched : list nat) (s : state) :
  supported input_type ->
  (exists i page,
     pages_of input_type base64_images text_inputs !! i = Some page /\
     forall s0, exists e s1, page_task E input_type page i s0 = (Raise e, s1)) ->
  exists e s',
    extract_multiple_pages_async E input_type file_name base64_images
                                 text_inputs combine_pages sched s
    = (Raise e, s')
    /\ exists j page,
         pages_of input_type base64_images text_inputs !! j = Some page /\
         raises (page_task E input_type page j) e.
Proof.
  intros Hs (i & page & Hi & Hfail).
  rewrite extract_multiple_pages_async_unfold by done.
  set (pages := pages_of input_type base64_images text_inputs) in *.
  set (tasks := imap (fun idx page => page_task E input_type page idx) pages).
  pose proof (gather_spec tasks sched s) as Hg.
  unfold bind. destruct (gather tasks sched s) as [[rs|e] s1].
  - exfalso.
    assert (tasks !! i = Some (page_task E input_type page i)) as Ht.
    { unfold tasks. by rewrite list_lookup_imap, Hi. }
    destruct (Forall2_lookup_l _ _ _ _ _ Hg Ht) as (r & _ & s0 & s2 & Hok).
    destruct (Hfail s0) as (e & s3 & Hraise). congruence.
  - exists e, s1. split; [done|].
    destruct Hg as (t & Hin & Hraise).
    unfold tasks in Hin. apply elem_of_lookup_imap in Hin
      as (j & page' & -> & Hj).
    by exists j, page'.
Qed.

Lemma extract_multiple_pages_async_order_witness :
  exists rs s',
    extract_multiple_pages_async demo_env "TEXT" "conversations" []
                                 ["a"; "b"; "c"] false [2; 0; 1] init
    = (Ok (PDict [("response", PList rs);
                  ("file_name", PStr "conversations")]), s')
    /\ length rs = length (pages_of "TEXT" [] ["a"; "b"; "c"])
    /\ forall i page,
         pages_of "TEXT" [] ["a"; "b"; "c"] !! i = Some page ->
         exists r, rs !! i = Some r /\
                   returns (page_task demo_env "TEXT" page i) r.
Proof.
  apply (extract_multiple_pages_async_order demo_env "TEXT" "conversations" []
           ["a"; "b"; "c"] false [2; 0; 1] init).
  - exact (bool_decide_unpack (supported "TEXT") I).
  - intros i page s0 Hi.
    destruct i as [|[|[|i]]]; simpl in Hi; [..|discriminate];
      injection Hi as <-; vm_compute; eexists _, _; reflexivity.
Defined.

Lemma extract_multiple_pages_async_page_failure_witness :
  exists e s',
    extract_multiple_pages_async demo_env "PDF" "152.pdf"
                                 ["AAAA"; "BBBB"; "CCCC"; "DDDD"] []
                                 false [1; 1] init
    = (Raise e, s')
    /\ exists j page,
         pages_of "PDF" ["AAAA"; "BBBB"; "CCCC"; "DDDD"] [] !! j = Some page /\
         raises (page_task demo_env "PDF" page j) e.
Proof.
  apply (extract_multiple_pages_async_page_failure demo_env "PDF" "152.pdf"
           ["AAAA"; "BBBB"; "CCCC"; "DDDD"] [] false [1; 1] init).
  - exact (bool_decide_unpack (supported "PDF") I).
  - exists 3, "DDDD". split; [reflexivity|].
    intros s0. vm_compute. eexists _, _. reflexivity.
Defined.

(** ** Effects on the files *)

Lemma writes_snoc tr fs ev :
  writes (mkState (tr ++ [ev]) fs) = writes (mkState tr fs) ++ omap write_of [ev].
Proof. unfold writes. simpl. by rewrite omap_app. Qed.

Lemma quiet_ret {A} (a : A) : quiet (ret a).
Proof. by intros s. Qed.

Lemma quiet_raise {A} e : quiet (raise (A := A) e).
Proof. by intros s. Qed.

Lemma quiet_lift {A} (o : outcome A) : quiet (lift o).
Proof. by intros s. Qed.

Lemma quiet_call {A} ev (f : list event -> outcome A) :
  write_of ev = None -> quiet (call ev f).
Proof.
  intros Hev s. unfold call. simpl. split; [done|].
  destruct s as [tr fs]. rewrite writes_snoc. simpl. rewrite Hev.
  by rewrite app_nil_r.
Qed.

Lemma quiet_emit ev : write_of ev = None -> quiet (emit ev).
Proof.
  intros Hev s. unfold emit. simpl. split; [done|].
  destruct s as [tr fs]. rewrite writes_snoc. simpl. rewrite Hev.
  by rewrite app_nil_r.
Qed.

Lemma quiet_bind {A B} (m : M A) (k : A -> M B) :
  quiet m -> (forall a, quiet (k a)) -> quiet (bind m k).
Proof.
  intros Hm Hk s. unfold bind. specialize (Hm s).
  destruct (m s) as [[a|e] s1]; simpl in *; [|done].
  destruct (Hk a s1) as [-> ->]. done.
Qed.

Create HintDb quiet.
#[local] Hint Resolve quiet_ret quiet_raise quiet_lift quiet_bind : quiet.

Lemma quiet_complete_all {A} n (pending : list (nat * M A)) sched done :
  Forall (fun it => quiet it.2) pending ->
  quiet (complete_all n pending sched done).
Proof.
  revert pending sched done.
  induction n as [|n IH]; intros pending sched done Hq; simpl.
  - apply quiet_ret.
  - destruct (pending !! _) as [[i t]|] eqn:Hlk; [|apply quiet_ret].
    apply quiet_bind.
    + rewrite Forall_forall in Hq.
      apply (Hq (i, t)). by eapply list_elem_of_lookup_2.
    + intros x. apply IH. eapply Forall_impl; [|by intros ? H; exact H].
      apply Forall_forall. intros it Hit. rewrite Forall_forall in Hq.
      apply Hq. by eapply list_elem_of_delete_inv.
Qed.

Lemma quiet_gather {A} (tasks : list (M A)) sched :
  Forall quiet tasks -> quiet (gather tasks sched).
Proof.
  intros Hq. unfold gather. apply quiet_bind; [|intros; apply quiet_ret].
  apply quiet_complete_all. apply Forall_forall. intros [i t] Hin.
  apply numbered_elem in Hin. rewrite Forall_forall in Hq.
  apply Hq. by eapply list_elem_of_lookup_2.
Qed.

Section QuietOrchestrator.

Variable E : Env.

Lemma quiet_parse_response_content raw : quiet (parse_response_content E raw).
Proof.
  unfold parse_response_content.
  destruct (json_loads E raw) as [v|[]]; auto with quiet.
  apply quiet_bind.
  - by apply quiet_call.
  - intros r. destruct (_ && _); auto with quiet.
Qed.

Lemma quiet_extract_fields_async input_type base_64 text_input page :
  quiet (extract_fields_async E input_type base_64 text_input page).
Proof.
  unfold extract_fields_async. apply quiet_bind.
  - repeat case_bool_decide; auto with quiet.
  - intros c. apply quiet_bind; [by apply quiet_call|].
    intros out. apply quiet_bind; [apply quiet_parse_response_content|].
    intros v. apply quiet_bind; [by apply quiet_emit|auto with quiet].
Qed.

Lemma quiet_extract_multiple_pages_async
    input_type file_name base64_images text_inputs combine_pages sched :
  quiet (extract_multiple_pages_async E input_type file_name base64_images
                                      text_inputs combine_pages sched).
Proof.
  destruct (decide (supported input_type)) as [Hs|Hns].
  - rewrite extract_multiple_pages_async_unfold by done.
    apply quiet_bind; [|auto with quiet].
    apply quiet_gather, Forall_forall. intros t Hin.
    apply elem_of_lookup_imap in Hin as (i & page & -> & _).
    unfold page_task.
    case_bool_decide; apply quiet_extract_fields_async.
  - intros s. unfold extract_multiple_pages_async, bind.
    case_bool_decide as H1; [exfalso; apply Hns, supported_iff; by left|].
    case_bool_decide as H2; [exfalso; apply Hns, supported_iff; by right|].
    done.
Qed.

(** What a document task returns is the dict with the page results and the
    file name. *)
Lemma extract_multiple_pages_async_returns
    input_type file_name base64_images text_inputs combine_pages sched v :
  returns (extract_multiple_pages_async E input_type file_name base64_images
                                        text_inputs combine_pages sched) v ->
  exists rs, v = final_response file_name rs.
Proof.
  intros (s & s' & H). unfold extract_multiple_pages_async, bind in H.
  repeat case_bool_decide; simpl in H; try discriminate;
    (destruct (gather _ sched s) as [[rs|e] s1]; [|discriminate];
     injection H as <- <-; by exists rs).
Qed.

End QuietOrchestrator.

(** ** The multi-document driver *)

Lemma write_sequence_other (kvs : list (string * string))
    (fs : gmap string string) (k : string) :
  k ∉ kvs.*1 -> write_sequence fs kvs !! k = fs !! k.
Proof.
  revert fs. induction kvs as [|[k' v'] kvs IH]; intros fs Hk; simpl; [done|].
  simpl in Hk. apply not_elem_of_cons in Hk as [Hne Hk].
  unfold write_sequence in *. simpl. rewrite IH by done.
  by rewrite lookup_insert_ne.
Qed.

Lemma write_sequence_last (kvs : list (string * string))
    (fs : gmap string string) (i : nat) (k v : string) :
  kvs !! i = Some (k, v) ->
  k ∉ (drop (S i) kvs).*1 ->
  write_sequence fs kvs !! k = Some v.
Proof.
  revert fs i. induction kvs as [|[k' v'] kvs IH]; intros fs i Hi Hk; [done|].
  destruct i as [|i]; simpl in *.
  - injection Hi as -> ->. rewrite drop_0 in Hk.
    unfold write_sequence. simpl.
    fold (write_sequence (<[k:=v]> fs) kvs).
    rewrite write_sequence_other by done. by rewrite lookup_insert_eq.
  - unfold write_sequence. simpl. by eapply IH.
Qed.

Section DriverFacts.

Variable E : Env.

Lemma pdf_tasks_Ok page_sched idx input_paths s tasks s1 :
  pdf_tasks E page_sched idx input_paths s = (Ok tasks, s1) ->
  files s1 = files s /\ writes s1 = writes s /\
  Forall2 (document_task E) input_paths tasks.
Proof.
  revert idx s tasks s1.
  induction input_paths as [|pdf_path rest IH]; intros idx s tasks s1; simpl.
  - intros [= <- <-]. by repeat split.
  - unfold bind at 1.
    pose proof (quiet_call (EvBase64 pdf_path)
      (fun tr => base_64_conversation E tr pdf_path) eq_refl s) as [Hf Hw].
    destruct (call _ _ s) as [[imgs|e] s0]; [|discriminate]. simpl in *.
    unfold bind at 1.
    destruct (pdf_tasks E page_sched (S idx) rest s0) as [[ts|e] s2] eqn:Hrec;
      [|discriminate].
    intros [= <- <-]. apply IH in Hrec as (Hf' & Hw' & Hall).
    split; [congruence|]. split; [congruence|].
    constructor; [|done]. by eexists "PDF", imgs, [], _.
Qed.

Lemma text_tasks_Ok page_sched idx (pairs : list (pyval * string)) s tasks s1 :
  text_tasks E page_sched idx pairs s = (Ok tasks, s1) ->
  s1 = s /\ Forall2 (document_task E) pairs.*2 tasks.
Proof.
  revert idx s tasks s1.
  induction pairs as [|[pdf pdf_path] rest IH]; intros idx s tasks s1; simpl.
  - intros [= <- <-]. by split.
  - unfold bind at 1, lift.
    destruct (retrieve_page_wise_parse E pdf) as [texts|e]; [|discriminate].
    unfold bind at 1.
    destruct (text_tasks E page_sched (S idx) rest s) as [[ts|e] s2] eqn:Hrec;
      [|discriminate].
    intros [= <- <-]. apply IH in Hrec as (-> & Hall).
    split; [done|]. constructor; [|done]. by eexists "TEXT", [], texts, _.
Qed.

(** A successful [write_all] has serialized every value and written the
    texts to the paths, in order. *)
Lemma write_all_Ok (pairs : list (pyval * string)) s s' :
  write_all E pairs s = (Ok tt, s') ->
  exists texts,
    Forall2 (fun p text => json_dump_indent2 E p.1 = Ok text) pairs texts /\
    writes s' = writes s ++ zip pairs.*2 texts /\
    files s' = write_sequence (files s) (zip pairs.*2 texts).
Proof.
  revert s. induction pairs as [|[v out] rest IH]; intros s; simpl.
  - intros [= <-]. exists []. simpl. by rewrite app_nil_r.
  - unfold bind at 1, write_json.
    destruct (can_open_w E out); [|discriminate].
    destruct (json_dump_indent2 E v) as [text|e] eqn:Hd; [|discriminate].
    intros Hrec. apply IH in Hrec as (texts & Hall & Hw & Hf).
    exists (text :: texts). split; [by constructor|].
    destruct s as [tr fs]. simpl in *.
    rewrite writes_snoc in Hw. simpl in Hw.
    split; [by rewrite Hw, <- app_assoc|done].
Qed.

End DriverFacts.

Section DriverRun.

Variable E : Env.

Lemma extract_multiple_pdfs_unfold
    input_paths output_paths parser save_parse dir doc_sched page_sched :
  extract_multiple_pdfs E input_paths output_paths parser save_parse dir
                        doc_sched page_sched
  = bind (driver_tasks E input_paths parser save_parse dir page_sched)
      (fun tasks =>
         bind (gather tasks doc_sched)
           (fun results =>
              bind (write_all E (zip results output_paths))
                   (fun _ => ret results))).
Proof. unfold extract_multiple_pdfs, driver_tasks. by destruct parser. Qed.

Lemma driver_tasks_Ok input_paths parser save_parse dir page_sched s tasks s1 :
  (parser = true -> parser_total E input_paths save_parse dir) ->
  driver_tasks E input_paths parser save_parse dir page_sched s = (Ok tasks, s1) ->
  files s1 = files s /\ writes s1 = writes s /\
  Forall2 (document_task E) input_paths tasks.
Proof.
  intros Htot. unfold driver_tasks. destruct parser.
  - unfold bind.
    pose proof (quiet_call (EvLandingParse input_paths)
      (fun tr => landing_ai_vision_parser E tr input_paths save_parse dir)
      eq_refl s) as [Hf Hw].
    unfold call in *. simpl in *.
    destruct (landing_ai_vision_parser E (trace s) _ _ _) as [parsed|e] eqn:Hp;
      [|discriminate].
    intros H. apply text_tasks_Ok in H as (-> & Hall).
    rewrite snd_zip in Hall by (rewrite (Htot eq_refl _ _ Hp); lia).
    done.
  - apply pdf_tasks_Ok.
Qed.

End DriverRun.

(** C8. After a successful run of [extract_multiple_pdfs] on path lists of
    equal length (in the pre-parsed mode, with a parser that returns one
    result per document), the run has written exactly one text per output
    path, in order; for every i, the i-th result is the dict with the keys
    [response] (the list of page results) and [file_name] (the last
    component of the i-th input path), the text written to the i-th output
    path is its [json.dump] with [indent=2], and that text is the final
    content of the file unless a later output path is the same. *)
Theorem extract_multiple_pdfs_writes
    (E : Env) (input_paths output_paths : list string)
    (parser save_parse : bool) (dir : string)
    (doc_sched : list nat) (page_sched : nat -> list nat)
    (s s' : state) (results : list pyval) :
  length input_paths = length output_paths ->
  (parser = true -> parser_total E input_paths save_parse dir) ->
  extract_multiple_pdfs E input_paths output_paths parser save_parse dir
                        doc_sched page_sched s = (Ok results, s') ->
  exists texts,
    length results = length input_paths /\
    length texts = length output_paths /\
    writes s' = writes s ++ zip output_paths texts /\
    forall i output_path,
      output_paths !! i = Some output_path ->
      exists pdf_path rs text,
        input_paths !! i = Some pdf_path /\
        results !! i = Some (PDict [("response", PList rs);
                                    ("file_name", PStr (last_component pdf_path))]) /\
        json_dump_indent2 E
          (PDict [("response", PList rs);
                  ("file_name", PStr (last_component pdf_path))]) = Ok text /\
        texts !! i = Some text /\
        (output_path ∉ drop (S i) output_paths ->
         files s' !! output_path = Some text).
Proof.
  intros Hlen Htot. rewrite extract_multiple_pdfs_unfold. unfold bind at 1.
  destruct (driver_tasks _ _ _ _ _ _ s) as [[tasks|e] s1] eqn:Ht;
    [|discriminate].
  apply driver_tasks_Ok in Ht as (Hf1 & Hw1 & Hdoc); [|done].
  unfold bind at 1.
  pose proof (gather_spec tasks doc_sched s1) as Hg.
  assert (Forall quiet tasks) as Hq.
  { apply Forall_forall. intros t Hin.
    apply list_elem_of_lookup in Hin as [i Hi].
    destruct (Forall2_lookup_r _ _ _ _ _ Hdoc Hi)
      as (p & _ & it & imgs & texts & sch & ->).
    apply quiet_extract_multiple_pages_async. }
  pose proof (quiet_gather tasks doc_sched Hq s1) as [Hf2 Hw2].
  destruct (gather tasks doc_sched s1) as [[rs|e] s2]; [|discriminate].
  simpl in Hf2, Hw2. unfold bind at 1.
  destruct (write_all E _ s2) as [[[]|e] s3] eqn:Hwa; [|discriminate].
  intros [= <- <-].
  pose proof (Forall2_length _ _ _ Hdoc) as Hl1.
  pose proof (Forall2_length _ _ _ Hg) as Hl2.
  apply write_all_Ok in Hwa as (texts & Hdump & Hw3 & Hf3).
  rewrite snd_zip in Hw3, Hf3 by lia.
  assert (Forall2 (fun r text => json_dump_indent2 E r = Ok text)
            (zip rs output_paths).*1 texts) as Hdump'
    by (apply Forall2_fmap_l; exact Hdump).
  clear Hdump. rename Hdump' into Hdump. rewrite fst_zip in Hdump by lia.
  pose proof (Forall2_length _ _ _ Hdump) as Hl3.
  exists texts. split; [lia|]. split; [lia|]. split; [congruence|].
  intros i out Hi.
  destruct (lookup_lt_is_Some_2 input_paths i) as [p Hp];
    [apply lookup_lt_Some in Hi; lia|].
  destruct (Forall2_lookup_l _ _ _ _ _ Hdoc Hp)
    as (t & Hti & it & imgs & txts & sch & ->).
  destruct (Forall2_lookup_l _ _ _ _ _ Hg Hti) as (r & Hri & Hret).
  apply extract_multiple_pages_async_returns in Hret as [prs ->].
  destruct (Forall2_lookup_l _ _ _ _ _ Hdump Hri) as (text & Htx & Hd).
  exists p, prs, text. repeat split; try done.
  intros Hlast. rewrite Hf3.
  apply (write_sequence_last _ _ i).
  - rewrite lookup_zip_with, Hi, Htx. done.
  - rewrite fmap_drop, fst_zip by lia. done.
Qed.

Lemma extract_multiple_pdfs_writes_witness :
  exists texts,
    length [final_response "152.pdf" [PDict []];
            final_response "1234.pdf" [PDict []]]
    = length ["docs/152.pdf"; "docs/1234.pdf"] /\
    length texts = length ["out/152.json"; "out/1234.json"] /\
    writes demo_batch_run.2
    = writes init ++ zip ["out/152.json"; "out/1234.json"] texts /\
    forall i output_path,
      ["out/152.json"; "out/1234.json"] !! i = Some output_path ->
      exists pdf_path rs text,
        ["docs/152.pdf"; "docs/1234.pdf"] !! i = Some pdf_path /\
        [final_response "152.pdf" [PDict []];
         final_response "1234.pdf" [PDict []]] !! i
        = Some (PDict [("response", PList rs);
                       ("file_name", PStr (last_component pdf_path))]) /\
        json_dump_indent2 demo_env
          (PDict [("response", PList rs);
                  ("file_name", PStr (last_component pdf_path))]) = Ok text /\
        texts !! i = Some text /\
        (output_path ∉ drop (S i) ["out/152.json"; "out/1234.json"] ->
         files demo_batch_run.2 !! output_path = Some text).
Proof.
  apply (extract_multiple_pdfs_writes demo_env
           ["docs/152.pdf"; "docs/1234.pdf"]
           ["out/152.json"; "out/1234.json"] true false ""
           [1; 0] (fun _ => []) init).
  - reflexivity.
  - intros _ tr parsed [= <-]. reflexivity.
  - vm_compute. reflexivity.
Defined.

(** C1. The driver compares the two lengths nowhere.  On three input paths
    and two output paths it extracts all three documents (six model
    requests for their two pages each), writes the first two results and
    returns the three results; it raises nothing. *)
Theorem extract_multiple_pdfs_length_mismatch_runs :
  demo_mismatch_run.1
  = Ok [final_response "152.pdf" [PDict []; PList []];
        final_response "152_double.pdf" [PDict []; PList []];
        final_response "1234.pdf" [PDict []; PList []]]
  /\ length (model_calls demo_mismatch_run.2) = 6
  /\ writes demo_mismatch_run.2
     = [("out/152.json", "152.pdf:2");
        ("out/152_double.json", "152_double.pdf:2")].
Proof. vm_compute. by repeat split. Qed.

(** * Further properties *)

(** ** The response repair *)

(** X1. When the raw text is not JSON and the coercion call yields an
    [ExtractionClass] instance, [parse_response_content] returns that
    instance, after exactly one coercion request for the raw text. *)
Theorem parse_response_content_repaired
    (E : Env) (raw : string) (e : ExtractionClass) (s : state) :
  json_loads E raw = Raise JSONDecodeError ->
  responses_parse E (trace s) raw = Ok (PModel e) ->
  parse_response_content E raw s = (Ok (PModel e), logged s [EvParse raw])
  /\ conforms (PModel e) = true.
Proof.
  intros Hj Hp. unfold parse_response_content, bind, with_rate_limiter, call.
  by rewrite Hj, Hp.
Qed.

Lemma parse_response_content_repaired_witness :
  parse_response_content (demo_env_repair (Ok (PModel rajesh)))
    "fullName: Rajesh Kumar" init
  = (Ok (PModel rajesh), logged init [EvParse "fullName: Rajesh Kumar"])
  /\ conforms (PModel rajesh) = true.
Proof.
  apply (parse_response_content_repaired (demo_env_repair (Ok (PModel rajesh)))
           "fullName: Rajesh Kumar" rajesh init); reflexivity.
Defined.

(** X2. [parse_response_content] is not exception-free: when the raw text
    is not JSON and the coercion call raises, the exception reaches the
    caller; it is not degraded to the empty dict. *)
Theorem parse_response_content_raises
    (E : Env) (raw : string) (err : exn) (s : state) :
  json_loads E raw = Raise JSONDecodeError ->
  responses_parse E (trace s) raw = Raise err ->
  parse_response_content E raw s = (Raise err, logged s [EvParse raw]).
Proof.
  intros Hj Hp. unfold parse_response_content, bind, with_rate_limiter, call.
  by rewrite Hj, Hp.
Qed.

Lemma parse_response_content_raises_witness :
  parse_response_content (demo_env_repair (Raise (ServiceError "rate limit")))
    "fullName: Rajesh Kumar" init
  = (Raise (ServiceError "rate limit"),
     logged init [EvParse "fullName: Rajesh Kumar"]).
Proof.
  apply (parse_response_content_raises
           (demo_env_repair (Raise (ServiceError "rate limit")))
           "fullName: Rajesh Kumar" (ServiceError "rate limit") init);
    reflexivity.
Defined.

(** ** The page extractor *)

Section PageRun.

Variable E : Env.

(** The run of the page extractor on a supported kind, step by step. *)
Lemma extract_fields_async_run input_type base_64 text_input page s :
  supported input_type ->
  extract_fields_async E input_type base_64 text_input page s
  = let req := page_request E input_type base_64 text_input page in
    match responses_create E (trace s) req with
    | Raise e => (Raise e, logged s [EvCreate req])
    | Ok out =>
        match parse_response_content E out (logged s [EvCreate req]) with
        | (Ok v, s1) => (Ok v, logged s1 [EvPrint page])
        | (Raise e, s1) => (Raise e, s1)
        end
    end.
Proof.
  intros Hs%supported_iff.
  unfold extract_fields_async, page_request.
  unfold bind at 1. simpl.
  case_bool_decide as H1.
  - unfold ret at 1. unfold bind at 1, with_rate_limiter, call.
    destruct (responses_create E (trace s) _) as [out|e]; [|done].
    unfold bind at 1. unfold logged.
    destruct (parse_response_content E out _) as [[v|e] s1]; [|done].
    reflexivity.
  - destruct Hs as [?| ->]; [done|].
    rewrite bool_decide_eq_true_2 by done.
    unfold ret at 1. unfold bind at 1, with_rate_limiter, call.
    destruct (responses_create E (trace s) _) as [out|e]; [|done].
    unfold bind at 1. unfold logged.
    destruct (parse_response_content E out _) as [[v|e] s1]; [|done].
    reflexivity.
Qed.

(** The run of the repair, step by step. *)
Lemma parse_response_content_run raw s :
  parse_response_content E raw s
  = match json_loads E raw with
    | Ok v => (Ok v, s)
    | Raise JSONDecodeError =>
        match responses_parse E (trace s) raw with
        | Ok r => (Ok (if truthy r && isinstance_ExtractionClass r
                       then r else PDict []), logged s [EvParse raw])
        | Raise e => (Raise e, logged s [EvParse raw])
        end
    | Raise e => (Raise e, s)
    end.
Proof.
  unfold parse_response_content, bind, with_rate_limiter, call, logged.
  destruct (json_loads E raw) as [v|[]]; try done.
  destruct (responses_parse E (trace s) raw) as [r|e]; [|done].
  by destruct (_ && _).
Qed.

Lemma extract_fields_async_supported input_type base_64 text_input page s v s' :
  extract_fields_async E input_type base_64 text_input page s = (Ok v, s') ->
  supported input_type.
Proof.
  intros H. apply supported_iff.
  unfold extract_fields_async, bind, raise in H.
  case_bool_decide as H1; [by left|].
  case_bool_decide as H2; [by right|discriminate].
Qed.

End PageRun.

(** X3. A successful page extraction has sent exactly one extraction
    request, the one for its page number with the image as a data URL or
    the text; it has made a second model call (the coercion of the answer)
    exactly when the answer was not JSON; it has printed the page number
    last; and it has touched no file. *)
Theorem extract_fields_async_success_trace
    (E : Env) (input_type base_64 text_input : string) (page : nat)
    (s s' : state) (v : pyval) :
  extract_fields_async E input_type base_64 text_input page s = (Ok v, s') ->
  exists out,
    responses_create E (trace s)
      (page_request E input_type base_64 text_input page) = Ok out /\
    files s' = files s /\
    ((json_loads E out = Ok v /\
      trace s' = trace s
                 ++ [EvCreate (page_request E input_type base_64 text_input page);
                     EvPrint page]) \/
     (json_loads E out = Raise JSONDecodeError /\
      trace s' = trace s
                 ++ [EvCreate (page_request E input_type base_64 text_input page);
                     EvParse out; EvPrint page])).
Proof.
  intros H. pose proof (extract_fields_async_supported E _ _ _ _ _ _ _ H) as Hs.
  rewrite extract_fields_async_run in H by done. simpl in H.
  destruct (responses_create E (trace s) _) as [out|e]; [|discriminate].
  exists out. split; [done|].
  rewrite parse_response_content_run in H.
  destruct (json_loads E out) as [w|err] eqn:Hj.
  - injection H as <- <-. split; [done|]. left. split; [done|].
    simpl. by rewrite <- app_assoc.
  - destruct err; try discriminate.
    destruct (responses_parse E _ out) as [r|e]; [|discriminate].
    injection H as <- <-. split; [done|]. right. split; [done|].
    simpl. by rewrite <- !app_assoc.
Qed.

Lemma extract_fields_async_success_trace_witness :
  exists out,
    responses_create demo_env (trace init)
      (page_request demo_env "TEXT" "" "Mera naam Rajesh Kumar hai" 2) = Ok out /\
    files (extract_fields_async demo_env "TEXT" ""
             "Mera naam Rajesh Kumar hai" 2 init).2 = files init /\
    ((json_loads demo_env out = Ok (PDict []) /\
      trace (extract_fields_async demo_env "TEXT" ""
               "Mera naam Rajesh Kumar hai" 2 init).2
      = trace init
        ++ [EvCreate (page_request demo_env "TEXT" ""
                        "Mera naam Rajesh Kumar hai" 2);
            EvPrint 2]) \/
     (json_loads demo_env out = Raise JSONDecodeError /\
      trace (extract_fields_async demo_env "TEXT" ""
               "Mera naam Rajesh Kumar hai" 2 init).2
      = trace init
        ++ [EvCreate (page_request demo_env "TEXT" ""
                        "Mera naam Rajesh Kumar hai" 2);
            EvParse out; EvPrint 2])).
Proof.
  apply (extract_fields_async_success_trace demo_env "TEXT" ""
           "Mera naam Rajesh Kumar hai" 2 init).
  reflexivity.
Defined.

(** X4. A page extraction that raises has not printed the completion line
    and has touched no file; it has made no model call (unsupported kind),
    one (the extraction request failed, or [json.loads] raised something
    else than [JSONDecodeError]), or two (the coercion call failed). *)
Theorem extract_fields_async_failure_trace
    (E : Env) (input_type base_64 text_input : string) (page : nat)
    (s s' : state) (e : exn) :
  extract_fields_async E input_type base_64 text_input page s = (Raise e, s') ->
  files s' = files s /\
  (trace s' = trace s \/
   trace s' = trace s
              ++ [EvCreate (page_request E input_type base_64 text_input page)] \/
   exists out,
     trace s' = trace s
                ++ [EvCreate (page_request E input_type base_64 text_input page);
                    EvParse out]).
Proof.
  intros H. destruct (decide (supported input_type)) as [Hs|Hns].
  - rewrite extract_fields_async_run in H by done. simpl in H.
    destruct (responses_create E (trace s) _) as [out|err].
    + rewrite parse_response_content_run in H.
      destruct (json_loads E out) as [w|err] eqn:Hj; [discriminate|].
      destruct err;
        try (injection H as <- <-; split; [done|]; right; by left).
      destruct (responses_parse E _ out) as [r|err]; [discriminate|].
      injection H as <- <-. split; [done|]. right. right. exists out.
      simpl. by rewrite <- app_assoc.
    + injection H as <- <-. split; [done|]. right. by left.
  - unfold extract_fields_async, bind, raise in H.
    case_bool_decide as H1; [exfalso; apply Hns, supported_iff; by left|].
    case_bool_decide as H2; [exfalso; apply Hns, supported_iff; by right|].
    injection H as <- <-. split; [done|]. by left.
Qed.

Lemma extract_fields_async_failure_trace_witness :
  files (extract_fields_async demo_env "IMAGE" "DDDD" "" 3 init).2 = files init /\
  (trace (extract_fields_async demo_env "IMAGE" "DDDD" "" 3 init).2
   = trace init \/
   trace (extract_fields_async demo_env "IMAGE" "DDDD" "" 3 init).2
   = trace init ++ [EvCreate (page_request demo_env "IMAGE" "DDDD" "" 3)] \/
   exists out,
     trace (extract_fields_async demo_env "IMAGE" "DDDD" "" 3 init).2
     = trace init ++ [EvCreate (page_request demo_env "IMAGE" "DDDD" "" 3);
                      EvParse out]).
Proof.
  apply (extract_fields_async_failure_trace demo_env "IMAGE" "DDDD" "" 3 init
           _ (ServiceError "connection reset")).
  reflexivity.
Defined.

(** ** What [gather] adds to the trace *)

Section GatherTrace.

Context {A B : Type}.
Variable f : event -> option B.
Variable R : nat -> list B -> Prop.

Lemma complete_all_adds n (pending : list (nat * M A)) sched done s d s' :
  length pending = n ->
  Forall (fun it => adds f R it.1 it.2) pending ->
  complete_all n pending sched done s = (Ok d, s') ->
  exists parts : list (nat * list B),
    parts.*1 ≡ₚ pending.*1 /\
    Forall (fun p => R p.1 p.2) parts /\
    omap f (trace s') = omap f (trace s) ++ concat parts.*2.
Proof.
  revert pending sched done s.
  induction n as [|n IH]; intros pending sched done s Hlen Hall; simpl.
  - destruct pending; [|done]. intros [= <- <-]. exists [].
    simpl. by rewrite app_nil_r.
  - set (k := hd 0 sched `mod` length pending).
    assert (k < length pending) as Hk
      by (apply Nat.mod_upper_bound; lia).
    destruct (pending !! k) as [[i t]|] eqn:Hlk;
      [|apply lookup_ge_None in Hlk; lia].
    pose proof (delete_Permutation _ _ _ Hlk) as Hperm.
    unfold bind. destruct (t s) as [[x|e] s1] eqn:Hts; [|discriminate].
    intros Hrec. apply IH in Hrec as (parts & Hp & HR & Htr).
    + rewrite Forall_forall in Hall.
      destruct (Hall (i, t) (list_elem_of_lookup_2 _ _ _ Hlk) s x s1 Hts)
        as (added & Hadd & HRi).
      exists ((i, added) :: parts). simpl. split; [|split].
      * rewrite Hp. symmetry. exact (fmap_Permutation fst _ _ Hperm).
      * by constructor.
      * by rewrite Htr, Hadd, <- app_assoc.
    + rewrite length_delete by eauto. lia.
    + apply Forall_forall. intros it Hit. rewrite Forall_forall in Hall.
      apply Hall. by eapply list_elem_of_delete_inv.
Qed.

Lemma gather_adds (tasks : list (M A)) sched s rs s' :
  (forall i t, tasks !! i = Some t -> adds f R i t) ->
  gather tasks sched s = (Ok rs, s') ->
  exists parts : list (nat * list B),
    parts.*1 ≡ₚ seq 0 (length tasks) /\
    Forall (fun p => R p.1 p.2) parts /\
    omap f (trace s') = omap f (trace s) ++ concat parts.*2.
Proof.
  intros Hall. unfold gather, bind.
  destruct (complete_all _ _ _ _ s) as [[d|e] s1] eqn:Hc; [|discriminate].
  intros [= <- <-].
  apply complete_all_adds in Hc as (parts & Hp & HR & Htr).
  - exists parts. by rewrite numbered_fst in Hp.
  - by rewrite length_imap.
  - apply Forall_forall. intros [i t] Hin. apply numbered_elem in Hin.
    simpl. by apply Hall.
Qed.

End GatherTrace.

(** When the task at every position adds the list expected at that
    position, [gather] has added the expected lists, in some order. *)
Lemma gather_adds_expected {A B} (f : event -> option B)
    (tasks : list (M A)) (expected : list (list B)) sched s rs s' :
  length expected = length tasks ->
  (forall i t, tasks !! i = Some t ->
     adds f (fun i added => expected !! i = Some added) i t) ->
  gather tasks sched s = (Ok rs, s') ->
  exists parts,
    parts ≡ₚ expected /\
    omap f (trace s') = omap f (trace s) ++ concat parts.
Proof.
  intros Hlen Hall Hg.
  destruct (gather_adds f _ tasks sched s rs s' Hall Hg)
    as (parts & Hp & HR & Htr).
  exists parts.*2. split; [|done].
  assert (parts.*2 = (fun i => default [] (expected !! i)) <$> parts.*1) as ->.
  { rewrite <- list_fmap_compose. apply list_fmap_ext.
    intros j [i added] Hj. simpl.
    rewrite Forall_forall in HR.
    specialize (HR (i, added) (list_elem_of_lookup_2 _ _ _ Hj)).
    simpl in HR. by rewrite HR. }
  rewrite Hp, <- Hlen.
  assert ((fun i => default [] (expected !! i)) <$> seq 0 (length expected)
          = expected) as ->; [|done].
  apply list_eq. intros i.
  rewrite list_lookup_fmap.
  destruct (expected !! i) as [x|] eqn:Hi; simpl.
  - rewrite (proj2 (lookup_seq 0 _ i i)); [by simpl; rewrite Hi|].
    split; [done|]. by eapply lookup_lt_Some.
  - rewrite lookup_seq_ge; [done|]. by apply lookup_ge_None.
Qed.

Lemma concat_Permutation_proper {B} (l k : list (list B)) :
  l ≡ₚ k -> concat l ≡ₚ concat k.
Proof.
  induction 1 as [|x l k _ IH|x y l|l k m _ IH1 _ IH2]; simpl.
  - done.
  - by rewrite IH.
  - rewrite !app_assoc. by rewrite (Permutation_app_comm x y).
  - by rewrite IH1.
Qed.

Lemma concat_singletons {B} (l : list B) :
  concat ((fun x => [x]) <$> l) = l.
Proof. induction l as [|x l IH]; simpl; [done|]. by f_equal. Qed.

Lemma model_calls_omap (s : state) :
  model_calls s
  = omap (fun ev => if is_model_call ev then Some ev else None) (trace s).
Proof.
  unfold model_calls. induction (trace s) as [|ev tr IH]; [done|].
  rewrite filter_cons.
  destruct (is_model_call ev) eqn:Hev; case_decide; try done;
    simpl; rewrite Hev; by rewrite IH.
Qed.

(** ** The multi-page aggregator: requests and model calls *)

Section AggregatorTrace.

Variable E : Env.

(** The trace of a successful page extraction: the request, the coercion
    call if there was one, the completion line. *)
Lemma extract_fields_async_Ok_trace input_type base_64 text_input page s v s' :
  extract_fields_async E input_type base_64 text_input page s = (Ok v, s') ->
  exists mid,
    trace s' = trace s
               ++ [EvCreate (page_request E input_type base_64 text_input page)]
               ++ mid ++ [EvPrint page] /\
    (mid = [] \/ exists out, mid = [EvParse out]).
Proof.
  intros H. pose proof (extract_fields_async_supported E _ _ _ _ _ _ _ H) as Hs.
  rewrite extract_fields_async_run in H by done. simpl in H.
  destruct (responses_create E (trace s) _) as [out|e]; [|discriminate].
  rewrite parse_response_content_run in H.
  destruct (json_loads E out) as [w|err] eqn:Hj.
  - injection H as <- <-. exists []. split; [|by left].
    simpl. by rewrite <- app_assoc.
  - destruct err; try discriminate.
    destruct (responses_parse E _ out) as [r|e]; [|discriminate].
    injection H as <- <-. exists [EvParse out]. split; [|right; by exists out].
    simpl. by rewrite <- !app_assoc.
Qed.

Lemma extract_multiple_pages_async_supported
    input_type file_name base64_images text_inputs combine_pages sched s v s' :
  extract_multiple_pages_async E input_type file_name base64_images
                               text_inputs combine_pages sched s = (Ok v, s') ->
  supported input_type.
Proof.
  intros H. apply supported_iff.
  unfold extract_multiple_pages_async, bind, raise in H.
  case_bool_decide as H1; [by left|].
  case_bool_decide as H2; [by right|discriminate].
Qed.

(** A successful aggregation is a successful [gather] of the page tasks. *)
Lemma extract_multiple_pages_async_Ok_gather
    input_type file_name base64_images text_inputs combine_pages sched s v s' :
  extract_multiple_pages_async E input_type file_name base64_images
                               text_inputs combine_pages sched s = (Ok v, s') ->
  exists rs,
    gather (imap (fun idx page => page_task E input_type page idx)
                 (pages_of input_type base64_images text_inputs)) sched s
    = (Ok rs, s') /\ v = final_response file_name rs.
Proof.
  intros H.
  pose proof (extract_multiple_pages_async_supported _ _ _ _ _ _ _ _ _ H) as Hs.
  rewrite extract_multiple_pages_async_unfold in H by done.
  unfold bind, ret in H.
  destruct (gather _ sched s) as [[rs|e] s1]; [|discriminate].
  injection H as <- <-. by exists rs.
Qed.

End AggregatorTrace.

(** X5. For an input kind other than "PDF", "IMAGE" and "TEXT",
    [extract_multiple_pages_async] raises its own [ValueError] and leaves
    the state as it was, whatever pages it is given: no page task is
    created, no request is sent. *)
Theorem extract_multiple_pages_async_unsupported
    (E : Env) (input_type file_name : string)
    (base64_images text_inputs : list string) (combine_pages : bool)
    (sched : list nat) (s : state) :
  ~ supported input_type ->
  extract_multiple_pages_async E input_type file_name base64_images
                               text_inputs combine_pages sched s
  = (Raise (ValueError
              "Unsupported file type. Use 'PDF', 'IMAGE', or 'TEXT'."), s).
Proof.
  intros Hns. unfold extract_multiple_pages_async, bind, raise.
  case_bool_decide as H1; [exfalso; apply Hns, supported_iff; by left|].
  case_bool_decide as H2; [exfalso; apply Hns, supported_iff; by right|].
  done.
Qed.

Lemma extract_multiple_pages_async_unsupported_witness :
  extract_multiple_pages_async demo_env "CSV" "loans.csv" ["AAAA"] ["a,b"]
                               false [0] init
  = (Raise (ValueError
              "Unsupported file type. Use 'PDF', 'IMAGE', or 'TEXT'."), init).
Proof.
  apply (extract_multiple_pages_async_unsupported demo_env "CSV" "loans.csv"
           ["AAAA"] ["a,b"] false [0] init).
  exact (bool_decide_unpack (~ supported "CSV") I).
Defined.

(** X6. In a successful aggregation, whatever the schedule, the extraction
    requests sent are exactly the requests of the pages (each page once,
    with its own index and content), in some order, and the completion
    line has been printed exactly once for every page index. *)
Theorem extract_multiple_pages_async_requests
    (E : Env) (input_type file_name : string)
    (base64_images text_inputs : list string) (combine_pages : bool)
    (sched : list nat) (s s' : state) (v : pyval) :
  extract_multiple_pages_async E input_type file_name base64_images
                               text_inputs combine_pages sched s = (Ok v, s') ->
  exists reqs order,
    create_requests s' = create_requests s ++ reqs /\
    reqs ≡ₚ page_requests E input_type
              (pages_of input_type base64_images text_inputs) /\
    printed_pages s' = printed_pages s ++ order /\
    order ≡ₚ seq 0 (length (pages_of input_type base64_images text_inputs)).
Proof.
  intros H.
  apply extract_multiple_pages_async_Ok_gather in H as (rs & Hg & _).
  set (pages := pages_of input_type base64_images text_inputs) in *.
  set (tasks := imap (fun idx page => page_task E input_type page idx) pages)
    in *.
  assert (forall i t, tasks !! i = Some t ->
            exists page, pages !! i = Some page /\
                         t = page_task E input_type page i) as Htask.
  { intros i t Ht. unfold tasks in Ht. rewrite list_lookup_imap in Ht.
    destruct (pages !! i) as [page|]; [|done].
    injection Ht as <-. by exists page. }
  destruct (gather_adds_expected create_of tasks
              ((fun r => [r]) <$> page_requests E input_type pages)
              sched s rs s') as (parts1 & Hp1 & Htr1); [| |done|].
  { unfold page_requests, tasks. by rewrite length_fmap, !length_imap. }
  { intros i t Ht. destruct (Htask i t Ht) as (page & Hpage & ->).
    intros s0 x s1 Hrun. unfold page_task in Hrun.
    exists [if bool_decide (input_type ∈ ["PDF"; "IMAGE"])
            then page_request E input_type page "" i
            else page_request E input_type "" page i].
    split.
    - case_bool_decide;
        apply extract_fields_async_Ok_trace in Hrun
          as (mid & -> & [->|[out ->]]);
        by rewrite !omap_app; simpl; rewrite ?app_nil_r.
    - rewrite list_lookup_fmap. unfold page_requests.
      by rewrite list_lookup_imap, Hpage. }
  destruct (gather_adds_expected print_of tasks
              ((fun i => [i]) <$> seq 0 (length pages))
              sched s rs s') as (parts2 & Hp2 & Htr2); [| |done|].
  { unfold tasks. by rewrite length_fmap, length_seq, length_imap. }
  { intros i t Ht. destruct (Htask i t Ht) as (page & Hpage & ->).
    intros s0 x s1 Hrun. unfold page_task in Hrun.
    exists [i]. split.
    - case_bool_decide;
        apply extract_fields_async_Ok_trace in Hrun
          as (mid & -> & [->|[out ->]]);
        by rewrite !omap_app; simpl; rewrite ?app_nil_r.
    - rewrite list_lookup_fmap.
      rewrite (proj2 (lookup_seq 0 _ i i)); [done|].
      split; [done|]. by eapply lookup_lt_Some. }
  exists (concat parts1), (concat parts2). repeat split; try done.
  - by rewrite (concat_Permutation_proper _ _ Hp1), concat_singletons.
  - by rewrite (concat_Permutation_proper _ _ Hp2), concat_singletons.
Qed.

Lemma extract_multiple_pages_async_requests_witness :
  exists reqs order,
    create_requests
      (extract_multiple_pages_async demo_env "TEXT" "conversations" []
         ["a"; "b"; "c"] false [2; 0; 1] init).2
    = create_requests init ++ reqs /\
    reqs ≡ₚ page_requests demo_env "TEXT" (pages_of "TEXT" [] ["a"; "b"; "c"]) /\
    printed_pages
      (extract_multiple_pages_async demo_env "TEXT" "conversations" []
         ["a"; "b"; "c"] false [2; 0; 1] init).2
    = printed_pages init ++ order /\
    order ≡ₚ seq 0 (length (pages_of "TEXT" [] ["a"; "b"; "c"])).
Proof.
  apply (extract_multiple_pages_async_requests demo_env "TEXT" "conversations"
           [] ["a"; "b"; "c"] false [2; 0; 1] init _
           (final_response "conversations" [PDict []; PList []; PDict []])).
  vm_compute. reflexivity.
Defined.

Lemma length_concat_between {B} (parts : list (nat * list B)) :
  Forall (fun p => 1 <= length p.2 <= 2) parts ->
  length parts <= length (concat parts.*2) <= 2 * length parts.
Proof.
  induction 1 as [|[i added] parts Hp _ IH]; [simpl; lia|].
  rewrite fmap_cons, concat_cons, length_app, length_cons.
  cbn [snd] in *. lia.
Qed.

(** X7. A successful aggregation of N pages has made at least N and at
    most 2N model calls: one extraction request per page, and one coercion
    call for every page whose answer was not JSON. *)
Theorem extract_multiple_pages_async_model_calls
    (E : Env) (input_type file_name : string)
    (base64_images text_inputs : list string) (combine_pages : bool)
    (sched : list nat) (s s' : state) (v : pyval) :
  extract_multiple_pages_async E input_type file_name base64_images
                               text_inputs combine_pages sched s = (Ok v, s') ->
  exists new,
    model_calls s' = model_calls s ++ new /\
    length (pages_of input_type base64_images text_inputs) <= length new
    <= 2 * length (pages_of input_type base64_images text_inputs).
Proof.
  intros H.
  apply extract_multiple_pages_async_Ok_gather in H as (rs & Hg & _).
  set (pages := pages_of input_type base64_images text_inputs) in *.
  apply (gather_adds
           (fun ev => if is_model_call ev then Some ev else None)
           (fun _ added => 1 <= length added <= 2)) in Hg
    as (parts & Hp & HR & Htr).
  - exists (concat parts.*2). rewrite !model_calls_omap. split; [done|].
    apply length_concat_between in HR.
    apply Permutation_length in Hp.
    rewrite length_fmap, length_seq, length_imap in Hp. lia.
  - intros i t Ht. rewrite list_lookup_imap in Ht.
    destruct (pages !! i) as [page|]; [|done]. injection Ht as <-.
    intros s0 x s1 Hrun. unfold page_task in Hrun.
    case_bool_decide;
      apply extract_fields_async_Ok_trace in Hrun
        as (mid & -> & [->|[out ->]]);
      match goal with
      | |- context [[EvCreate ?r] ++ [] ++ _] => exists [EvCreate r]
      | |- context [[EvCreate ?r] ++ [EvParse ?o] ++ _] =>
          exists [EvCreate r; EvParse o]
      end;
      (split; [by rewrite !omap_app; simpl; rewrite ?app_nil_r|simpl; lia]).
Qed.

Lemma extract_multiple_pages_async_model_calls_witness :
  exists new,
    model_calls
      (extract_multiple_pages_async demo_env "TEXT" "conversations" []
         ["a"; "b"; "c"] false [2; 0; 1] init).2
    = model_calls init ++ new /\
    length (pages_of "TEXT" [] ["a"; "b"; "c"]) <= length new
    <= 2 * length (pages_of "TEXT" [] ["a"; "b"; "c"]).
Proof.
  apply (extract_multiple_pages_async_model_calls demo_env "TEXT"
           "conversations" [] ["a"; "b"; "c"] false [2; 0; 1] init _
           (final_response "conversations" [PDict []; PList []; PDict []])).
  vm_compute. reflexivity.
Defined.

(** ** Independence from the schedule *)

Lemma returns_stateless {A} (t : M A) (x y : A) :
  stateless t -> returns t x -> returns t y -> x = y.
Proof.
  intros Hst (s1 & s1' & H1) (s2 & s2' & H2).
  specialize (Hst s1 s2). rewrite H1, H2 in Hst. simpl in Hst. congruence.
Qed.

Lemma returns_raises_stateless {A} (t : M A) (x : A) (e : exn) :
  stateless t -> returns t x -> raises t e -> False.
Proof.
  intros Hst (s1 & s1' & H1) (s2 & s2' & H2).
  specialize (Hst s1 s2). rewrite H1, H2 in Hst. simpl in Hst. congruence.
Qed.

(** With tasks whose outcomes do not depend on the state, the results of
    [gather] do not depend on the schedule. *)
Lemma gather_stateless {A} (tasks : list (M A)) sched1 sched2 s1 s2 rs :
  Forall stateless tasks ->
  (gather tasks sched1 s1).1 = Ok rs ->
  (gather tasks sched2 s2).1 = Ok rs.
Proof.
  intros Hst H1.
  pose proof (gather_spec tasks sched1 s1) as G1.
  pose proof (gather_spec tasks sched2 s2) as G2.
  destruct (gather tasks sched1 s1) as [[rs1|e1] s1']; [|discriminate].
  simpl in H1. injection H1 as ->.
  destruct (gather tasks sched2 s2) as [[rs2|e2] s2']; simpl.
  - f_equal. clear -Hst G1 G2. revert rs2 G2.
    induction G1 as [|t r tasks rs Hr _ IH]; intros rs2 G2.
    + by apply Forall2_nil_inv_l in G2.
    + apply Forall2_cons_inv_l in G2 as (r2 & rs2' & Hr2 & G2 & ->).
      apply Forall_cons in Hst as [Ht Hst].
      f_equal; [by eapply returns_stateless|by apply IH].
  - exfalso. destruct G2 as (t & Hin & Hraise).
    apply list_elem_of_lookup in Hin as [i Hi].
    destruct (Forall2_lookup_l _ _ _ _ _ G1 Hi) as (r & _ & Hret).
    rewrite Forall_forall in Hst.
    eapply returns_raises_stateless; [|done..].
    apply Hst. by eapply list_elem_of_lookup_2.
Qed.

Lemma extract_fields_async_stateless E input_type base_64 text_input page :
  history_independent E ->
  stateless (extract_fields_async E input_type base_64 text_input page).
Proof.
  intros [Hc Hp] s1 s2.
  destruct (decide (supported input_type)) as [Hs|Hns].
  - rewrite !extract_fields_async_run by done. simpl.
    rewrite (Hc (trace s1) (trace s2)).
    destruct (responses_create E (trace s2) _) as [out|e]; [|done].
    rewrite !parse_response_content_run.
    destruct (json_loads E out) as [w|[]]; try done.
    simpl.
    match goal with
    | |- context [responses_parse E (trace s1 ++ ?l) out] =>
        rewrite (Hp (trace s1 ++ l) (trace s2 ++ l))
    end.
    by destruct (responses_parse E _ out).
  - unfold extract_fields_async, bind, raise.
    case_bool_decide as H1; [exfalso; apply Hns, supported_iff; by left|].
    case_bool_decide as H2; [exfalso; apply Hns, supported_iff; by right|].
    done.
Qed.

(** X8. With a model service whose answers do not depend on the history
    (a deterministic model, a mock), the completion order of the page
    tasks has no influence on a successful aggregation: if the aggregation
    returns a dict under one schedule and from one state, it returns the
    same dict under every schedule and from every state. *)
Theorem extract_multiple_pages_async_schedule_independent
    (E : Env) (input_type file_name : string)
    (base64_images text_inputs : list string) (combine_pages : bool)
    (sched1 sched2 : list nat) (s1 s2 : state) (v : pyval) :
  history_independent E ->
  (extract_multiple_pages_async E input_type file_name base64_images
     text_inputs combine_pages sched1 s1).1 = Ok v ->
  (extract_multiple_pages_async E input_type file_name base64_images
     text_inputs combine_pages sched2 s2).1 = Ok v.
Proof.
  intros HI H1.
  destruct (extract_multiple_pages_async E input_type file_name base64_images
              text_inputs combine_pages sched1 s1) as [o s1'] eqn:Hrun.
  simpl in H1. subst o.
  pose proof (extract_multiple_pages_async_supported _ _ _ _ _ _ _ _ _ _ Hrun)
    as Hs.
  apply extract_multiple_pages_async_Ok_gather in Hrun as (rs & Hg & ->).
  rewrite extract_multiple_pages_async_unfold by done.
  unfold bind.
  assert ((gather (imap (fun idx page => page_task E input_type page idx)
                        (pages_of input_type base64_images text_inputs))
                  sched2 s2).1 = Ok rs) as Hg2.
  { eapply gather_stateless; [|by rewrite Hg].
    apply Forall_forall. intros t Hin.
    apply elem_of_lookup_imap in Hin as (i & page & -> & _).
    unfold page_task. case_bool_decide;
      by apply extract_fields_async_stateless. }
  destruct (gather _ sched2 s2) as [o s2']. simpl in Hg2. by subst o.
Qed.

Lemma extract_multiple_pages_async_schedule_independent_witness :
  (extract_multiple_pages_async demo_env "PDF" "152.pdf"
     ["AAAA"; "BBBB"; "CCCC"] [] false [0; 0; 0]
     (mkState [EvPrint 9] ∅)).1
  = Ok (final_response "152.pdf" [PDict []; PList []; PDict []]).
Proof.
  apply (extract_multiple_pages_async_schedule_independent demo_env "PDF"
           "152.pdf" ["AAAA"; "BBBB"; "CCCC"] [] false [2; 1; 0] [0; 0; 0]
           init (mkState [EvPrint 9] ∅)).
  - split; reflexivity.
  - reflexivity.
Defined.

(** ** The multi-document driver: every run *)


Lemma zip_zip_snd {B C D} (l : list B) (k : list C) (m : list D) :
  length m <= length (zip l k) ->
  zip (zip l k).*2 m = zip k m.
Proof.
  revert k m. induction l as [|b l IH]; intros [|c k] [|d m]; simpl;
    try done; try lia.
  intros Hlen. f_equal. apply IH. lia.
Qed.

Lemma fst_zip_take {B C} (l : list B) (k : list C) :
  (zip l k).*1 = take (length k) l.
Proof.
  revert k. induction l as [|b l IH]; intros [|c k]; simpl; try done.
  by rewrite IH.
Qed.

Section DriverEveryRun.

Variable E : Env.

Lemma quiet_pdf_tasks page_sched idx input_paths :
  quiet (pdf_tasks E page_sched idx input_paths).
Proof.
  revert idx. induction input_paths as [|p rest IH]; intros idx; simpl.
  - apply quiet_ret.
  - apply quiet_bind; [by apply quiet_call|]. intros imgs.
    apply quiet_bind; [apply IH|]. intros ts. apply quiet_ret.
Qed.

Lemma quiet_text_tasks page_sched idx (pairs : list (pyval * string)) :
  quiet (text_tasks E page_sched idx pairs).
Proof.
  revert idx. induction pairs as [|[pdf p] rest IH]; intros idx; simpl.
  - apply quiet_ret.
  - apply quiet_bind; [apply quiet_lift|]. intros texts.
    apply quiet_bind; [apply IH|]. intros ts. apply quiet_ret.
Qed.

Lemma quiet_driver_tasks input_paths parser save_parse dir page_sched :
  quiet (driver_tasks E input_paths parser save_parse dir page_sched).
Proof.
  unfold driver_tasks. destruct parser.
  - apply quiet_bind; [by apply quiet_call|]. intros parsed.
    apply quiet_text_tasks.
  - apply quiet_pdf_tasks.
Qed.

(** The tasks the driver creates write no file. *)
Lemma driver_tasks_quiet input_paths parser save_parse dir page_sched s tasks s1 :
  driver_tasks E input_paths parser save_parse dir page_sched s = (Ok tasks, s1) ->
  Forall quiet tasks.
Proof.
  intros H.
  assert (exists paths, Forall2 (document_task E) paths tasks) as [paths Hdoc].
  { unfold driver_tasks in H. destruct parser.
    - unfold bind, call in H.
      destruct (landing_ai_vision_parser E _ _ _ _) as [parsed|e];
        [|discriminate].
      apply text_tasks_Ok in H as [_ Hall]. by eexists.
    - apply pdf_tasks_Ok in H as (_ & _ & Hall). by eexists. }
  apply Forall_forall. intros t Hin.
  apply list_elem_of_lookup in Hin as [i Hi].
  destruct (Forall2_lookup_r _ _ _ _ _ Hdoc Hi)
    as (p & _ & it & imgs & texts & sch & ->).
  apply quiet_extract_multiple_pages_async.
Qed.



End DriverEveryRun.


(** X10. A successful run of [extract_multiple_pdfs] on path lists of any
    lengths (in the pre-parsed mode, with a parser that returns one result
    per document) returns one result per input path, but writes only
    min(inputs, outputs) files: the serializations of the first results to
    the first output paths.  Surplus output paths are not written, and
    surplus results are returned without being written. *)
Theorem extract_multiple_pdfs_truncates
    (E : Env) (input_paths output_paths : list string)
    (parser save_parse : bool) (dir : string)
    (doc_sched : list nat) (page_sched : nat -> list nat)
    (s s' : state) (results : list pyval) :
  (parser = true -> parser_total E input_paths save_parse dir) ->
  extract_multiple_pdfs E input_paths output_paths parser save_parse dir
                        doc_sched page_sched s = (Ok results, s') ->
  length results = length input_paths /\
  exists texts,
    length texts = length input_paths `min` length output_paths /\
    writes s' = writes s ++ zip output_paths texts /\
    Forall2 (fun r text => json_dump_indent2 E r = Ok text)
            (take (length output_paths) results) texts.
Proof.
  intros Htot. rewrite extract_multiple_pdfs_unfold. unfold bind at 1.
  destruct (driver_tasks _ _ _ _ _ _ s) as [[tasks|e] s1] eqn:Ht;
    [|discriminate].
  pose proof (driver_tasks_quiet E _ _ _ _ _ _ _ _ Ht) as Hq.
  apply driver_tasks_Ok in Ht as (Hf1 & Hw1 & Hdoc); [|done].
  unfold bind at 1.
  pose proof (gather_spec tasks doc_sched s1) as Hg.
  pose proof (quiet_gather tasks doc_sched Hq s1) as [Hf2 Hw2].
  destruct (gather tasks doc_sched s1) as [[rs|e] s2]; [|discriminate].
  simpl in Hf2, Hw2. unfold bind at 1.
  destruct (write_all E _ s2) as [[[]|e] s3] eqn:Hwa; [|discriminate].
  intros [= <- <-].
  pose proof (Forall2_length _ _ _ Hdoc) as Hl1.
  pose proof (Forall2_length _ _ _ Hg) as Hl2.
  split; [lia|].
  apply write_all_Ok in Hwa as (texts & Hdump & Hw3 & Hf3).
  pose proof (Forall2_length _ _ _ Hdump) as Hl3.
  rewrite length_zip_with in Hl3.
  exists texts. split; [lia|]. split.
  - rewrite Hw3, zip_zip_snd by (rewrite length_zip_with; lia). congruence.
  - rewrite <- fst_zip_take. apply Forall2_fmap_l. exact Hdump.
Qed.

Lemma extract_multiple_pdfs_truncates_witness :
  length [final_response "152.pdf" [PDict []; PList []];
          final_response "152_double.pdf" [PDict []; PList []];
          final_response "1234.pdf" [PDict []; PList []]]
  = length ["docs/152.pdf"; "docs/152_double.pdf"; "docs/1234.pdf"] /\
  exists texts,
    length texts
    = length ["docs/152.pdf"; "docs/152_double.pdf"; "docs/1234.pdf"]
      `min` length ["out/152.json"; "out/152_double.json"] /\
    writes demo_mismatch_run.2
    = writes init ++ zip ["out/152.json"; "out/152_double.json"] texts /\
    Forall2 (fun r text => json_dump_indent2 demo_env r = Ok text)
            (take (length ["out/152.json"; "out/152_double.json"])
                  [final_response "152.pdf" [PDict []; PList []];
                   final_response "152_double.pdf" [PDict []; PList []];
                   final_response "1234.pdf" [PDict []; PList []]]) texts.
Proof.
  apply (extract_multiple_pdfs_truncates demo_env
           ["docs/152.pdf"; "docs/152_double.pdf"; "docs/1234.pdf"]
           ["out/152.json"; "out/152_double.json"] false false ""
           [] (fun _ => []) init).
  - intros [=].
  - vm_compute. reflexivity.
Defined.

Section DriverFailures.

Variable E : Env.

Lemma pdf_tasks_model_calls page_sched idx input_paths s :
  model_calls (pdf_tasks E page_sched idx input_paths s).2 = model_calls s.
Proof.
  revert idx s. induction input_paths as [|p rest IH]; intros idx s; simpl;
    [done|].
  unfold bind at 1, call.
  destruct (base_64_conversation E (trace s) p) as [imgs|e]; simpl.
  - unfold bind.
    match goal with
    | |- context [pdf_tasks E page_sched (S idx) rest ?s1] =>
        specialize (IH (S idx) s1);
        destruct (pdf_tasks E page_sched (S idx) rest s1) as [[ts|e] s2]
    end; simpl in *; rewrite IH; unfold model_calls; simpl;
      by rewrite filter_app, app_nil_r.
  - unfold model_calls. simpl. by rewrite filter_app, app_nil_r.
Qed.

Lemma pdf_tasks_raises page_sched idx input_paths p s :
  p ∈ input_paths ->
  (forall tr, exists e, base_64_conversation E tr p = Raise e) ->
  exists e s1, pdf_tasks E page_sched idx input_paths s = (Raise e, s1).
Proof.
  intros Hin Hfail. revert idx s.
  induction input_paths as [|q rest IH]; intros idx s;
    [by apply elem_of_nil in Hin|].
  simpl. unfold bind at 1, call.
  destruct (base_64_conversation E (trace s) q) as [imgs|e] eqn:Hq;
    [|by eexists _, _].
  apply elem_of_cons in Hin as [->|Hin].
  - destruct (Hfail (trace s)) as [e He]. congruence.
  - unfold bind at 1.
    match goal with
    | |- context [pdf_tasks E page_sched (S idx) rest ?s1] =>
        destruct (IH Hin (S idx) s1) as (e & s2 & ->)
    end. by eexists _, _.
Qed.

End DriverFailures.

(** X11. In the direct mode, when the conversion of one of the documents
    to page images raises, [extract_multiple_pdfs] raises before any
    document is extracted: no model call is made and no file is written,
    also for the documents that could be converted. *)
Theorem extract_multiple_pdfs_conversion_failure
    (E : Env) (input_paths output_paths : list string)
    (save_parse : bool) (dir : string)
    (doc_sched : list nat) (page_sched : nat -> list nat)
    (pdf_path : string) (s : state) :
  pdf_path ∈ input_paths ->
  (forall tr, exists e, base_64_conversation E tr pdf_path = Raise e) ->
  exists e s',
    extract_multiple_pdfs E input_paths output_paths false save_parse dir
                          doc_sched page_sched s = (Raise e, s')
    /\ model_calls s' = model_calls s
    /\ writes s' = writes s
    /\ files s' = files s.
Proof.
  intros Hin Hfail.
  rewrite extract_multiple_pdfs_unfold. unfold bind, driver_tasks.
  pose proof (pdf_tasks_model_calls E page_sched 0 input_paths s) as Hm.
  pose proof (quiet_pdf_tasks E page_sched 0 input_paths s) as [Hf Hw].
  destruct (pdf_tasks_raises E page_sched 0 input_paths pdf_path s Hin Hfail)
    as (e & s1 & Hr).
  rewrite Hr in *. by exists e, s1.
Qed.

Lemma extract_multiple_pdfs_conversion_failure_witness :
  exists e s',
    extract_multiple_pdfs demo_env_convert
      ["docs/152.pdf"; "docs/missing.pdf"] ["out/152.json"; "out/missing.json"]
      false false "" [] (fun _ => []) init = (Raise e, s')
    /\ model_calls s' = model_calls init
    /\ writes s' = writes init
    /\ files s' = files init.
Proof.
  apply (extract_multiple_pdfs_conversion_failure demo_env_convert
           ["docs/152.pdf"; "docs/missing.pdf"]
           ["out/152.json"; "out/missing.json"] false "" [] (fun _ => [])
           "docs/missing.pdf" init).
  - right. left.
  - intros tr. eexists. reflexivity.
Defined.

Section ParserFailures.

Variable E : Env.



End ParserFailures.



Section FailFast.

Variable E : Env.

(** An aggregation with a page whose extraction always raises does not
    return. *)
Lemma aggregation_raises
    input_type file_name base64_images text_inputs combine_pages sched s :
  supported input_type ->
  (exists i page,
     pages_of input_type base64_images text_inputs !! i = Some page /\
     forall s0, exists e s1, page_task E input_type page i s0 = (Raise e, s1)) ->
  exists e s',
    extract_multiple_pages_async E input_type file_name base64_images
                                 text_inputs combine_pages sched s
    = (Raise e, s').
Proof.
  intros Hs (i & page & Hi & Hfail).
  rewrite extract_multiple_pages_async_unfold by done.
  set (tasks := imap _ _).
  pose proof (gather_spec tasks sched s) as Hg.
  unfold bind. destruct (gather tasks sched s) as [[rs|e] s1];
    [|by eexists _, _].
  exfalso.
  assert (tasks !! i = Some (page_task E input_type page i)) as Ht.
  { unfold tasks. by rewrite list_lookup_imap, Hi. }
  destruct (Forall2_lookup_l _ _ _ _ _ Hg Ht) as (r & _ & s0 & s2 & Hok).
  destruct (Hfail s0) as (e & s3 & Hraise). congruence.
Qed.

(** The tasks of the direct mode, with the images they were created
    from. *)
Lemma pdf_tasks_Ok_images page_sched idx input_paths s tasks s1 :
  pdf_tasks E page_sched idx input_paths s = (Ok tasks, s1) ->
  Forall2 (fun pdf_path t =>
             exists tr base64_images sched,
               base_64_conversation E tr pdf_path = Ok base64_images /\
               t = extract_multiple_pages_async E "PDF"
                     (last_component pdf_path) base64_images [] false sched)
          input_paths tasks.
Proof.
  revert idx s tasks s1.
  induction input_paths as [|pdf_path rest IH]; intros idx s tasks s1; simpl.
  - intros [= <- <-]. constructor.
  - unfold bind at 1, call.
    destruct (base_64_conversation E (trace s) pdf_path) as [imgs|e] eqn:Hb;
      [|discriminate].
    unfold bind at 1.
    match goal with
    | |- context [pdf_tasks E page_sched (S idx) rest ?s0] =>
        destruct (pdf_tasks E page_sched (S idx) rest s0) as [[ts|e] s2] eqn:Hrec
    end; [|discriminate].
    intros [= <- <-]. apply IH in Hrec.
    constructor; [|done]. by eexists (trace s), imgs, _.
Qed.

End FailFast.

(** X13. The direct mode fails fast: when the aggregation of one of the
    documents raises (whatever images its conversion yields, whatever the
    schedule), [extract_multiple_pdfs] raises and no output file has been
    written, also for the documents that were extracted. *)
Theorem extract_multiple_pdfs_fail_fast
    (E : Env) (input_paths output_paths : list string)
    (save_parse : bool) (dir : string)
    (doc_sched : list nat) (page_sched : nat -> list nat)
    (pdf_path : string) (s : state) :
  pdf_path ∈ input_paths ->
  (forall tr base64_images sched s0,
     base_64_conversation E tr pdf_path = Ok base64_images ->
     exists e s1,
       extract_multiple_pages_async E "PDF" (last_component pdf_path)
         base64_images [] false sched s0 = (Raise e, s1)) ->
  exists e s',
    extract_multiple_pdfs E input_paths output_paths false save_parse dir
                          doc_sched page_sched s = (Raise e, s')
    /\ writes s' = writes s
    /\ files s' = files s.
Proof.
  intros Hin Hfail.
  rewrite extract_multiple_pdfs_unfold. unfold bind at 1.
  pose proof (quiet_driver_tasks E input_paths false save_parse dir
                page_sched s) as [Hf1 Hw1].
  destruct (driver_tasks _ _ _ _ _ _ s) as [[tasks|e] s1] eqn:Ht;
    simpl in Hf1, Hw1; [|by exists e, s1].
  pose proof (driver_tasks_quiet E _ _ _ _ _ _ _ _ Ht) as Hq.
  unfold driver_tasks in Ht. apply pdf_tasks_Ok_images in Ht.
  pose proof (gather_spec tasks doc_sched s1) as Hg.
  pose proof (quiet_gather tasks doc_sched Hq s1) as [Hf2 Hw2].
  unfold bind at 1.
  destruct (gather tasks doc_sched s1) as [[rs|e] s2]; simpl in Hf2, Hw2.
  - exfalso. apply list_elem_of_lookup in Hin as [i Hi].
    destruct (Forall2_lookup_l _ _ _ _ _ Ht Hi)
      as (t & Hti & tr & imgs & sched & Hb & ->).
    destruct (Forall2_lookup_l _ _ _ _ _ Hg Hti) as (r & _ & s0 & s3 & Hok).
    destruct (Hfail tr imgs sched s0 Hb) as (e & s4 & Hraise). congruence.
  - exists e, s2. split; [done|]. split; congruence.
Qed.

Lemma extract_multiple_pdfs_fail_fast_witness :
  exists e s',
    extract_multiple_pdfs demo_env_convert
      ["docs/152.pdf"; "docs/long.pdf"] ["out/152.json"; "out/long.json"]
      false false "" [] (fun _ => []) init = (Raise e, s')
    /\ writes s' = writes init
    /\ files s' = files init.
Proof.
  apply (extract_multiple_pdfs_fail_fast demo_env_convert
           ["docs/152.pdf"; "docs/long.pdf"] ["out/152.json"; "out/long.json"]
           false "" [] (fun _ => []) "docs/long.pdf" init).
  - right. left.
  - intros tr imgs sched s0 [= <-].
    apply aggregation_raises.
    + exact (bool_decide_unpack (supported "PDF") I).
    + exists 3, "DDDD". split; [reflexivity|].
      intros s1. vm_compute. eexists _, _. reflexivity.
Defined.

(** ** Splitting a path *)

Lemma split_at_cons sep s : exists w ws, split_at sep s = w :: ws.
Proof.
  destruct s as [|c r]; simpl; [by eexists _, _|].
  destruct (Ascii.eqb c sep); [by eexists _, _|].
  destruct (split_at sep r); by eexists _, _.
Qed.

(** X14. Joining the pieces of [split_at] with the separator gives the
    string back: [sep.join(s.split(sep)) == s]. *)
Theorem split_at_join (sep : Ascii.ascii) (s : string) :
  String.concat (String sep EmptyString) (split_at sep s) = s.
Proof.
  induction s as [|c r IH]; [done|]. simpl split_at.
  destruct (split_at_cons sep r) as (w & ws & Hr). rewrite Hr in *.
  destruct (Ascii.eqb c sep) eqn:Hc.
  - apply Ascii.eqb_eq in Hc as ->.
    change (String.concat (String sep EmptyString) (EmptyString :: w :: ws))
      with (String sep (String.concat (String sep EmptyString) (w :: ws))).
    by rewrite IH.
  - rewrite <- IH. by destruct ws.
Qed.

Lemma split_at_pieces_clean sep (s : string) :
  Forall (fun w => count_char sep w = 0) (split_at sep s).
Proof.
  induction s as [|c r IH]; simpl; [by repeat constructor|].
  destruct (split_at_cons sep r) as (w & ws & Hr). rewrite Hr in *.
  apply Forall_cons in IH as [Hw Hws].
  destruct (Ascii.eqb c sep) eqn:Hc; [by repeat constructor|].
  constructor; [|done]. simpl. by rewrite Hc.
Qed.

(** X15. The pieces of [split_at] do not contain the separator, and there
    is one piece more than there are separators in the string; so a
    string without separator is its only piece. *)
Theorem split_at_pieces (sep : Ascii.ascii) (s : string) :
  Forall (fun w => count_char sep w = 0) (split_at sep s)
  /\ length (split_at sep s) = S (count_char sep s).
Proof.
  induction s as [|c r [IH1 IH2]]; simpl.
  - split; [by repeat constructor|done].
  - destruct (split_at_cons sep r) as (w & ws & Hr). rewrite Hr in *.
    simpl in IH2. apply Forall_cons in IH1 as [Hw Hws].
    destruct (Ascii.eqb c sep) eqn:Hc; simpl.
    + split; [by repeat constructor|lia].
    + split; [|lia]. constructor; [|done]. simpl. by rewrite Hc.
Qed.

Lemma split_at_no_sep sep s :
  count_char sep s = 0 -> split_at sep s = [s].
Proof.
  induction s as [|c r IH]; simpl; [done|].
  destruct (Ascii.eqb c sep); [done|]. simpl. intros H. by rewrite IH.
Qed.

Lemma split_at_app_pieces sep (a b : string) :
  split_at sep (a ++ String sep b)%string = split_at sep a ++ split_at sep b.
Proof.
  induction a as [|c a IH]; simpl.
  - by rewrite Ascii.eqb_refl.
  - rewrite IH. destruct (split_at_cons sep a) as (w & ws & ->).
    by destruct (Ascii.eqb c sep).
Qed.

(** X16. Splitting composes: the pieces of [a], [sep], [b] put together
    are the pieces of [a] followed by the pieces of [b]. *)
Theorem split_at_app (sep : Ascii.ascii) (a b : string) :
  split_at sep (a ++ String sep b)%string = split_at sep a ++ split_at sep b.
Proof.
  induction a as [|c a IH]; simpl.
  - by rewrite Ascii.eqb_refl.
  - rewrite IH. destruct (split_at_cons sep a) as (w & ws & ->).
    by destruct (Ascii.eqb c sep).
Qed.

Lemma last_split_at_app sep (a b : string) :
  last (split_at sep (a ++ String sep b)%string) = last (split_at sep b).
Proof.
  rewrite split_at_app_pieces.
  destruct (split_at_cons sep b) as (w & ws & ->).
  by rewrite last_app_cons.
Qed.

(** X17. The file name the driver takes from a path contains no slash. *)
Theorem last_component_no_slash (pdf_path : string) :
  count_char "/" (last_component pdf_path) = 0.
Proof.
  unfold last_component.
  pose proof (split_at_pieces_clean "/" pdf_path) as Hall.
  destruct (last (split_at "/" pdf_path)) as [w|] eqn:Hl; [|done].
  simpl. rewrite Forall_forall in Hall. apply Hall.
  apply last_Some in Hl as [l' ->]. set_solver.
Qed.

(** X18. For a path [dir/name] whose last part [name] has no slash, the
    file name is [name], whatever [dir]; in particular a path that ends
    with a slash gives the empty file name. *)
Theorem last_component_of_path (dir name : string) :
  count_char "/" name = 0 ->
  last_component (dir ++ String "/" name)%string = name.
Proof.
  intros H. unfold last_component.
  by rewrite last_split_at_app, split_at_no_sep.
Qed.

Lemma last_component_of_path_witness :
  last_component ("/home/murari/ec_documents" ++ String "/" "152.pdf")%string
  = "152.pdf".
Proof.
  apply (last_component_of_path "/home/murari/ec_documents" "152.pdf").
  reflexivity.
Defined.

(** ** The transcript and the HTTP endpoint *)

Lemma dict_get_missing (d : dict) (key : string) :
  key ∉ d.*1 -> dict_get d key = Fails (KeyError (PStr key)).
Proof.
  induction d as [|[k v] d IH]; simpl; [done|].
  intros [Hne Hd]%not_elem_of_cons.
  destruct (String.eqb k key) eqn:Hk; [|by apply IH].
  apply String.eqb_eq in Hk. congruence.
Qed.

Lemma string_app_assoc (a b c : string) :
  ((a ++ b) ++ c = a ++ (b ++ c))%string.
Proof.
  induction a as [|x a IH]; [done|].
  change (String x ((a ++ b) ++ c) = String x (a ++ (b ++ c)))%string.
  by f_equal.
Qed.

Lemma concat_app_nonempty (sep : string) (l1 l2 : list string) :
  l1 <> [] -> l2 <> [] ->
  String.concat sep (l1 ++ l2)
  = (String.concat sep l1 ++ sep ++ String.concat sep l2)%string.
Proof.
  intros H1 H2. induction l1 as [|x l1 IH]; [done|].
  destruct l1 as [|y l1].
  - destruct l2; [done|]. reflexivity.
  - change (String.concat sep ((x :: y :: l1) ++ l2))
      with (x ++ sep ++ String.concat sep ((y :: l1) ++ l2))%string.
    rewrite IH by done.
    change (String.concat sep (x :: y :: l1))
      with (x ++ sep ++ String.concat sep (y :: l1))%string.
    by rewrite !string_app_assoc.
Qed.

(** [gather] of one task is that task. *)
Lemma gather_single {A} (t : M A) sched s :
  gather [t] sched s
  = match t s with
    | (Ok x, s') => (Ok [x], s')
    | (Raise e, s') => (Raise e, s')
    end.
Proof.
  unfold gather.
  change (imap (fun i t => (i, t)) [t]) with [(0, t)].
  change (length [t]) with 1.
  unfold complete_all. change (length [(0, t)]) with 1.
  rewrite Nat.mod_1_r. unfold bind. simpl.
  by destruct (t s) as [[x|e] s'].
Qed.

Section EndpointFacts.

Variable W : Web.
Variable E : Env.

Lemma turn_lines_app (xs ys : list dict) (a b : list string) :
  turn_lines W xs = Fine a -> turn_lines W ys = Fine b ->
  turn_lines W (xs ++ ys) = Fine (a ++ b).
Proof.
  revert a. induction xs as [|c xs IH]; intros a; simpl.
  - by intros [= <-].
  - destruct (turn_line W c) as [line|e]; [|done].
    destruct (turn_lines W xs) as [lines|e]; [|done].
    intros [= <-] Hb. by rewrite (IH lines eq_refl Hb).
Qed.

Lemma turn_lines_length (xs : list dict) (a : list string) :
  turn_lines W xs = Fine a -> length a = length xs.
Proof.
  revert a. induction xs as [|c xs IH]; intros a; simpl.
  - by intros [= <-].
  - destruct (turn_line W c) as [line|e]; [|done].
    destruct (turn_lines W xs) as [lines|e]; [|done].
    intros [= <-]. simpl. by rewrite (IH lines).
Qed.

Lemma turn_lines_first_failure (before after : list dict) (c : dict) e :
  Forall (fun c => exists line, turn_line W c = Fine line) before ->
  turn_line W c = Fails e ->
  turn_lines W (before ++ c :: after) = Fails e.
Proof.
  intros Hb Hc. induction Hb as [|c0 before [line Hl] _ IH]; simpl.
  - by rewrite Hc.
  - by rewrite Hl, IH.
Qed.

(** The aggregation of a single text page is its extraction. *)
Lemma extract_multiple_pages_async_single file_name base64_images text sched s :
  extract_multiple_pages_async E "TEXT" file_name base64_images [text] false
                               sched s
  = match extract_fields_async E "TEXT" "" text 0 s with
    | (Ok v, s') => (Ok (final_response file_name [v]), s')
    | (Raise e, s') => (Raise e, s')
    end.
Proof.
  rewrite extract_multiple_pages_async_unfold
    by exact (bool_decide_unpack (supported "TEXT") I).
  change (pages_of "TEXT" base64_images [text]) with [text].
  change (imap (fun idx page => page_task E "TEXT" page idx) [text])
    with [extract_fields_async E "TEXT" "" text 0].
  unfold bind, ret. rewrite gather_single.
  by destruct (extract_fields_async E "TEXT" "" text 0 s) as [[v|e] s'].
Qed.

Lemma first_response_final file_name (r : pyval) (rs : list pyval) :
  first_response W (final_response file_name (r :: rs)) = Fine r.
Proof. reflexivity. Qed.

End EndpointFacts.

(** X19. Formatting composes: the text of two non-empty runs of turns put
    together is the text of the first, a line feed, and the text of the
    second.  The text of no turn at all is the empty string. *)
Theorem format_transcript_app
    (W : Web) (xs ys : list dict) (a b : string) :
  xs <> [] -> ys <> [] ->
  format_transcript W xs = Fine a ->
  format_transcript W ys = Fine b ->
  format_transcript W (xs ++ ys)
  = Fine (a ++ String newline EmptyString ++ b)%string
  /\ format_transcript W [] = Fine EmptyString.
Proof.
  intros Hx Hy Ha Hb. split; [|done]. unfold format_transcript in *.
  destruct (turn_lines W xs) as [la|e] eqn:Hla; [|done].
  destruct (turn_lines W ys) as [lb|e] eqn:Hlb; [|done].
  injection Ha as <-. injection Hb as <-.
  rewrite (turn_lines_app W xs ys la lb Hla Hlb).
  rewrite concat_app_nonempty; [done|..].
  - intros ->. apply turn_lines_length in Hla. by destruct xs.
  - intros ->. apply turn_lines_length in Hlb. by destruct ys.
Qed.

Lemma format_transcript_app_witness :
  format_transcript demo_web (take 1 sample_turns ++ drop 1 sample_turns)
  = Fine ("Bot: First of all, what is your full name?"
          ++ String newline EmptyString
          ++ "User: Hi, my name is Rajesh Kumar.")%string
  /\ format_transcript demo_web [] = Fine EmptyString.
Proof.
  apply (format_transcript_app demo_web (take 1 sample_turns)
           (drop 1 sample_turns)); try reflexivity; discriminate.
Defined.

(** X20. [format_transcript] raises the exception of the first turn that
    cannot be formatted, whatever follows it. *)
Theorem format_transcript_first_failure
    (W : Web) (before after : list dict) (c : dict) (e : py_error) :
  Forall (fun c => exists line, turn_line W c = Fine line) before ->
  turn_line W c = Fails e ->
  format_transcript W (before ++ c :: after) = Fails e.
Proof.
  intros Hb Hc. unfold format_transcript.
  by rewrite (turn_lines_first_failure W before after c e Hb Hc).
Qed.

Lemma format_transcript_first_failure_witness :
  format_transcript demo_web
    (sample_turns ++ [("id", PStr "3"); ("role", PInt 7)] :: [[]])
  = Fails (AttributeError (PInt 7) "capitalize").
Proof.
  apply (format_transcript_first_failure demo_web sample_turns [[]]
           [("id", PStr "3"); ("role", PInt 7)]).
  - repeat constructor; eexists; reflexivity.
  - reflexivity.
Defined.

Section EndpointRun.

Variable W : Web.
Variable E : Env.

(** The endpoint, once the transcript is formatted: the extraction of the
    text as page 0, then the rendering of its result. *)
Lemma summarize_transcript_run request sched s text :
  format_transcript W request = Fine text ->
  summarize_transcript W E request sched s
  = match extract_fields_async E "TEXT" "" text 0 s with
    | (Ok v, s') =>
        match render_json W v with
        | Ok body => (Response200 body, s')
        | Raise e => (Error500 (error_text W (Core e)), s')
        end
    | (Raise e, s') => (Error500 (error_text W (Core e)), s')
    end.
Proof.
  intros Hf. unfold summarize_transcript. rewrite Hf.
  rewrite extract_multiple_pages_async_single.
  destruct (extract_fields_async E "TEXT" "" text 0 s) as [[v|e] s']; [|done].
  by rewrite first_response_final.
Qed.

End EndpointRun.

(** X21. End to end: when the transcript can be formatted, the model
    answers the single request (page 0, the formatted text) with a JSON
    text and the decoded value can be rendered, the endpoint answers 200
    with the rendering of that value, unchanged, after exactly one model
    call. *)
Theorem summarize_transcript_end_to_end
    (W : Web) (E : Env) (request : list dict) (sched : list nat) (s : state)
    (text out body : string) (v : pyval) :
  format_transcript W request = Fine text ->
  responses_create E (trace s) (page_request E "TEXT" "" text 0) = Ok out ->
  json_loads E out = Ok v ->
  render_json W v = Ok body ->
  summarize_transcript W E request sched s
  = (Response200 body,
     logged s [EvCreate (page_request E "TEXT" "" text 0); EvPrint 0]).
Proof.
  intros Hf Hc Hj Hr. rewrite (summarize_transcript_run W E _ _ _ text Hf).
  rewrite extract_fields_async_run
    by exact (bool_decide_unpack (supported "TEXT") I).
  simpl. rewrite Hc, parse_response_content_run, Hj, Hr.
  unfold logged. simpl. by rewrite <- app_assoc.
Qed.

Lemma summarize_transcript_end_to_end_witness :
  summarize_transcript demo_web demo_env sample_turns [] init
  = (Response200 "{}",
     logged init
       [EvCreate (page_request demo_env "TEXT" ""
                    ("Bot: First of all, what is your full name?"
                     ++ String newline EmptyString
                     ++ "User: Hi, my name is Rajesh Kumar.")%string 0);
        EvPrint 0]).
Proof.
  apply (summarize_transcript_end_to_end demo_web demo_env sample_turns []
           init _ "{}" "{}" (PDict [])); reflexivity.
Defined.

(** X22. Silent degradation reaches the client: when the model's answer is
    not JSON and the coercion call yields something that is not an
    [ExtractionClass] instance, the endpoint answers 200 with the
    rendering of the empty dict, not an error. *)
Theorem summarize_transcript_degraded
    (W : Web) (E : Env) (request : list dict) (sched : list nat) (s : state)
    (text out body : string) (r : pyval) :
  format_transcript W request = Fine text ->
  responses_create E (trace s) (page_request E "TEXT" "" text 0) = Ok out ->
  json_loads E out = Raise JSONDecodeError ->
  responses_parse E
    (trace s ++ [EvCreate (page_request E "TEXT" "" text 0)]) out = Ok r ->
  isinstance_ExtractionClass r = false ->
  render_json W (PDict []) = Ok body ->
  summarize_transcript W E request sched s
  = (Response200 body,
     logged s [EvCreate (page_request E "TEXT" "" text 0);
               EvParse out; EvPrint 0]).
Proof.
  intros Hf Hc Hj Hp Hi Hr. rewrite (summarize_transcript_run W E _ _ _ text Hf).
  rewrite extract_fields_async_run
    by exact (bool_decide_unpack (supported "TEXT") I).
  simpl. rewrite Hc, parse_response_content_run, Hj. simpl.
  rewrite Hp, Hi, andb_false_r, Hr.
  unfold logged. simpl. by rewrite <- !app_assoc.
Qed.

Lemma summarize_transcript_degraded_witness :
  summarize_transcript demo_web (demo_env_answer (Ok "Sure! fullName: Rajesh"))
    sample_turns [] init
  = (Response200 "{}",
     logged init
       [EvCreate (page_request (demo_env_answer (Ok "Sure! fullName: Rajesh"))
                    "TEXT" ""
                    ("Bot: First of all, what is your full name?"
                     ++ String newline EmptyString
                     ++ "User: Hi, my name is Rajesh Kumar.")%string 0);
        EvParse "Sure! fullName: Rajesh"; EvPrint 0]).
Proof.
  apply (summarize_transcript_degraded demo_web
           (demo_env_answer (Ok "Sure! fullName: Rajesh")) sample_turns []
           init _ "Sure! fullName: Rajesh" "{}" (PObject "ParsedResponse"));
    reflexivity.
Defined.

(** X23. A turn without a [role] key, after turns that can be formatted,
    makes the endpoint answer 500 with the text of [KeyError('role')],
    whether or not the turn has a [message]; the state is as it was, so
    no request has been sent to the model. *)
Theorem summarize_transcript_missing_role
    (W : Web) (E : Env) (before after : list dict) (c : dict)
    (sched : list nat) (s : state) :
  Forall (fun c => exists line, turn_line W c = Fine line) before ->
  "role" ∉ c.*1 ->
  summarize_transcript W E (before ++ c :: after) sched s
  = (Error500 (error_text W (KeyError (PStr "role"))), s).
Proof.
  intros Hb Hc. unfold summarize_transcript, format_transcript.
  rewrite (turn_lines_first_failure W before after c
             (KeyError (PStr "role")) Hb); [done|].
  unfold turn_line. by rewrite (dict_get_missing c "role" Hc).
Qed.

Lemma summarize_transcript_missing_role_witness :
  summarize_transcript demo_web demo_env
    (sample_turns ++ [("id", PStr "3"); ("message", PStr "Mumbai")] :: [])
    [] init
  = (Error500 (error_text demo_web (KeyError (PStr "role"))), init).
Proof.
  apply (summarize_transcript_missing_role demo_web demo_env sample_turns []
           [("id", PStr "3"); ("message", PStr "Mumbai")] [] init).
  - repeat constructor; eexists; reflexivity.
  - exact (bool_decide_unpack
             ("role" ∉ [("id", PStr "3"); ("message", PStr "Mumbai")].*1) I).
Defined.

(** X24. When the extraction request fails, the endpoint answers 500 with
    the text of that exception; the request has been sent once and no
    completion line has been printed. *)
Theorem summarize_transcript_model_failure
    (W : Web) (E : Env) (request : list dict) (sched : list nat) (s : state)
    (text : string) (e : exn) :
  format_transcript W request = Fine text ->
  responses_create E (trace s) (page_request E "TEXT" "" text 0) = Raise e ->
  summarize_transcript W E request sched s
  = (Error500 (error_text W (Core e)),
     logged s [EvCreate (page_request E "TEXT" "" text 0)]).
Proof.
  intros Hf Hc. rewrite (summarize_transcript_run W E _ _ _ text Hf).
  rewrite extract_fields_async_run
    by exact (bool_decide_unpack (supported "TEXT") I).
  simpl. by rewrite Hc.
Qed.

Lemma summarize_transcript_model_failure_witness :
  summarize_transcript demo_web
    (demo_env_answer (Raise (ServiceError "connection reset")))
    sample_turns [] init
  = (Error500 (error_text demo_web (Core (ServiceError "connection reset"))),
     logged init
       [EvCreate (page_request
                    (demo_env_answer (Raise (ServiceError "connection reset")))
                    "TEXT" ""
                    ("Bot: First of all, what is your full name?"
                     ++ String newline EmptyString
                     ++ "User: Hi, my name is Rajesh Kumar.")%string 0)]).
Proof.
  apply (summarize_transcript_model_failure demo_web
           (demo_env_answer (Raise (ServiceError "connection reset")))
           sample_turns [] init _ (ServiceError "connection reset"));
    reflexivity.
Defined.

(** X25. Splitting undoes joining: for a non-empty list of pieces none of
    which contains the separator, [sep.join(pieces).split(sep) == pieces]. *)
Theorem split_at_of_join (sep : Ascii.ascii) (pieces : list string) :
  pieces <> [] ->
  Forall (fun w => count_char sep w = 0) pieces ->
  split_at sep (String.concat (String sep EmptyString) pieces) = pieces.
Proof.
  intros Hne Hall. induction Hall as [|x l Hx Hl IH]; [done|].
  destruct l as [|y l].
  - simpl. by apply split_at_no_sep.
  - change (String.concat (String sep EmptyString) (x :: y :: l))
      with (x ++ String sep (String.concat (String sep EmptyString) (y :: l)))%string.
    rewrite split_at_app_pieces, IH by done.
    by rewrite split_at_no_sep.
Qed.

Lemma split_at_of_join_witness :
  split_at newline
    (String.concat (String newline EmptyString)
       ["Bot: First of all, what is your full name?";
        "User: Hi, my name is Rajesh Kumar."])
  = ["Bot: First of all, what is your full name?";
     "User: Hi, my name is Rajesh Kumar."].
Proof.
  apply (split_at_of_join newline
           ["Bot: First of all, what is your full name?";
            "User: Hi, my name is Rajesh Kumar."]).
  - discriminate.
  - repeat constructor.
Defined.


